(** * Shadow Nexus, Core_Control: the authenticated command bus

    A shallow embedding of the three core classes of [Core_Control]
    ([SignatureVerifier], [MessageProcessor], [CommandRouter]) together with
    the parts of the Python runtime they call, and the properties of the
    specification settled against them; then the controller that ties the
    three together ([CoreControl]) and the command handlers of
    [Command_Network] that the router dispatches to, with the properties the
    code shows for them.

    Conventions of the embedding.
    - A Python [str] is a [string], one character per code point; this covers
      the code points below 256.
    - A Python [bytes] is a list of 8-bit integers ([Z] in [0, 256)).
    - A Python [float] is a primitive binary64 [float].
    - A [datetime] is a count of microseconds since the epoch; the process
      runs in UTC, so naive local datetimes and POSIX time agree.
    - A call that may raise returns its failure as a value (a [result] for
      handlers, an [option] or a type of outcomes for library calls), and a
      [try]/[except] is the case analysis on it.
    - Clock readings ([datetime.now()]) are explicit arguments, in the order
      the code takes them.
    - The router returns the records of its [logging] calls with its
      value; the calls of the other classes, which change neither state
      nor result, are left out.
    - [route_command] is a coroutine; the model runs it to completion in
      one task.
    - The repository pins no version of pydantic; the model takes the major
      version installed as an argument wherever [Command] is built.
    - JSON texts stay within two limits of the interpreter: they nest less
      deep than its recursion limit, and their integers are shorter than
      its digit limit (4300 digits by default). *)

From Stdlib Require Import ZArith List String Ascii Bool Lia.
From Stdlib Require Import Floats.
From stdpp Require Import gmap strings.

Import ListNotations.
#[local] Set Warnings "-register-all".
Local Open Scope string_scope.
Local Open Scope list_scope.
Local Open Scope Z_scope.

(** ** Bytes and text encodings *)

Module Bytes.

Abbreviation bytes := (list Z).

Definition code (c : ascii) : Z := Z.of_N (N_of_ascii c).

(** [str.encode('utf-8')] on code points below 256: one byte below 128, two
    bytes from there on. *)
Definition utf8_char (c : ascii) : bytes :=
  let n := code c in
  if n <? 128 then [n]
  else [Z.lor 192 (Z.shiftr n 6); Z.lor 128 (Z.land n 63)].

Fixpoint utf8_encode (s : string) : bytes :=
  match s with
  | EmptyString => []
  | String c s' => utf8_char c ++ utf8_encode s'
  end.

(** [bytes.decode('utf-8')] on ASCII bytes, which is all [b64encode]
    produces. *)
Definition ascii_decode (b : bytes) : string :=
  fold_right (fun x s => String (ascii_of_N (Z.to_N x)) s) EmptyString b.

(** The first character of a UTF-8 text of code points below 256, and the
    bytes after it. *)
Definition utf8_decode_head (b : bytes) : option (ascii * bytes) :=
  match b with
  | x :: r =>
      if x <? 128 then Some (ascii_of_N (Z.to_N x), r)
      else
        match r with
        | y :: r' =>
            Some (ascii_of_N (Z.to_N (Z.lor (Z.shiftl (Z.land x 3) 6) (Z.land y 63))), r')
        | [] => None
        end
  | [] => None
  end.

(** A big-endian integer of [n] bytes. *)
Fixpoint be_bytes (n : nat) (x : Z) : bytes :=
  match n with
  | O => []
  | S n' => be_bytes n' (Z.shiftr x 8) ++ [Z.land x 255]
  end.

Definition be_word (b : bytes) : Z :=
  fold_left (fun acc x => Z.lor (Z.shiftl acc 8) x) b 0.

(** Cuts a list into consecutive chunks of [n] items ([fuel] bounds the
    number of chunks). *)
Fixpoint chunks {A} (fuel n : nat) (l : list A) : list (list A) :=
  match fuel, l with
  | O, _ | _, [] => []
  | S fuel', _ => firstn n l :: chunks fuel' n (skipn n l)
  end.

End Bytes.

(** ** SHA-256, HMAC and Base64 ([hashlib], [hmac], [base64]) *)

Module Sha256.
Import Bytes.

Definition w32 (x : Z) : Z := Z.land x 4294967295.
Definition add32 (x y : Z) : Z := w32 (x + y).
Definition rotr (n x : Z) : Z :=
  Z.lor (Z.shiftr x n) (w32 (Z.shiftl x (32 - n))).
Definition not32 (x : Z) : Z := Z.lxor x 4294967295.

Definition Ch (x y z : Z) : Z := Z.lxor (Z.land x y) (Z.land (not32 x) z).
Definition Maj (x y z : Z) : Z :=
  Z.lxor (Z.lxor (Z.land x y) (Z.land x z)) (Z.land y z).
Definition Sigma0 (x : Z) : Z := Z.lxor (Z.lxor (rotr 2 x) (rotr 13 x)) (rotr 22 x).
Definition Sigma1 (x : Z) : Z := Z.lxor (Z.lxor (rotr 6 x) (rotr 11 x)) (rotr 25 x).
Definition sigma0 (x : Z) : Z := Z.lxor (Z.lxor (rotr 7 x) (rotr 18 x)) (Z.shiftr x 3).
Definition sigma1 (x : Z) : Z := Z.lxor (Z.lxor (rotr 17 x) (rotr 19 x)) (Z.shiftr x 10).

(** The constants of the standard are taken from its definition: the first
    32 bits of the fractional parts of the cube roots ([K]) and of the square
    roots ([H0]) of the first primes. *)
Definition is_prime (n : Z) : bool :=
  forallb (fun d => negb (n mod d =? 0) || (n <=? d))
          (map Z.of_nat (seq 2 16)).

Definition primes : list Z :=
  filter is_prime (map Z.of_nat (seq 2 310)).

(** The integer cube root of [n], one bit at a time from bit [b - 1] down. *)
Fixpoint cube_root (b : nat) (n r : Z) : Z :=
  match b with
  | O => r
  | S b' =>
      let r' := r + 2 ^ Z.of_nat b' in
      cube_root b' n (if r' * r' * r' <=? n then r' else r)
  end.

Definition K : list Z :=
  Eval vm_compute in
    map (fun p => w32 (cube_root 36 (p * 2 ^ 96) 0)) primes.

Definition H0 : list Z :=
  Eval vm_compute in
    map (fun p => w32 (Z.sqrt (p * 2 ^ 64))) (firstn 8 primes).

(** The padded message: a 1 bit, zeros up to 56 mod 64, the bit length on
    eight bytes. *)
Definition pad (m : bytes) : bytes :=
  let len := Z.of_nat (length m) in
  let z := (55 - len) mod 64 in
  m ++ [128] ++ repeat 0 (Z.to_nat z) ++ be_bytes 8 (8 * len).

(** The message schedule, most recent word first: [rev_w] holds
    W[t-1], W[t-2], ... *)
Fixpoint extend (n : nat) (rev_w : list Z) : list Z :=
  match n with
  | O => rev_w
  | S n' =>
      let w := add32 (add32 (sigma1 (nth 1 rev_w 0)) (nth 6 rev_w 0))
                     (add32 (sigma0 (nth 14 rev_w 0)) (nth 15 rev_w 0)) in
      extend n' (w :: rev_w)
  end.

Definition schedule (block : bytes) : list Z :=
  rev (extend 48 (rev (map be_word (chunks 16 4 block)))).

Definition round (st : list Z) (kw : Z * Z) : list Z :=
  match st with
  | [a; b; c; d; e; f; g; h] =>
      let t1 := add32 (add32 (add32 h (Sigma1 e)) (add32 (Ch e f g) (fst kw))) (snd kw) in
      let t2 := add32 (Sigma0 a) (Maj a b c) in
      [add32 t1 t2; a; b; c; add32 d t1; e; f; g]
  | _ => st
  end.

Definition compress (h : list Z) (block : bytes) : list Z :=
  let st := fold_left round (combine K (schedule block)) h in
  map (fun p => add32 (fst p) (snd p)) (combine h st).

Definition sha256 (m : bytes) : bytes :=
  let p := pad m in
  let h := fold_left compress (chunks (length p) 64 p) H0 in
  concat (map (be_bytes 4) h).

Definition block_size : nat := 64.

(** [hmac.new(key, msg, hashlib.sha256).digest()] *)
Definition hmac_sha256 (key msg : bytes) : bytes :=
  let key' := if (Z.of_nat block_size <? Z.of_nat (length key)) then sha256 key else key in
  let key'' := key' ++ repeat 0 (block_size - length key') in
  let ipad := map (Z.lxor 0x36) key'' in
  let opad := map (Z.lxor 0x5c) key'' in
  sha256 (opad ++ sha256 (ipad ++ msg)).

End Sha256.

Module Base64.
Import Bytes.

Definition alphabet : string :=
  "ABCDEFGHIJKLMNOPQRSTUVWXYZabcdefghijklmnopqrstuvwxyz0123456789+/".

Definition digit (x : Z) : Z :=
  match String.get (Z.to_nat x) alphabet with
  | Some c => code c
  | None => 0
  end.

Definition pad_char : Z := 61.

Definition encode_group (g : bytes) : bytes :=
  match g with
  | [a; b; c] =>
      [digit (Z.shiftr a 2);
       digit (Z.lor (Z.shiftl (Z.land a 3) 4) (Z.shiftr b 4));
       digit (Z.lor (Z.shiftl (Z.land b 15) 2) (Z.shiftr c 6));
       digit (Z.land c 63)]
  | [a; b] =>
      [digit (Z.shiftr a 2);
       digit (Z.lor (Z.shiftl (Z.land a 3) 4) (Z.shiftr b 4));
       digit (Z.shiftl (Z.land b 15) 2);
       pad_char]
  | [a] =>
      [digit (Z.shiftr a 2);
       digit (Z.shiftl (Z.land a 3) 4);
       pad_char; pad_char]
  | _ => []
  end.

(** [base64.b64encode] *)
Definition b64encode (b : bytes) : bytes :=
  concat (map encode_group (chunks (length b) 3 b)).

End Base64.

(** ** Python floats: truth value, [repr], and the conversions of [datetime] *)

Module PyFloat.

(** [bool(x)]: a float is false exactly when it equals zero (either sign);
    NaN is true. *)
Definition float_bool (x : float) : bool := negb (PrimFloat.eqb x 0%float).

(** The float of an integer of magnitude below 2^53 (exact). *)
Definition of_Z (z : Z) : float :=
  match z with
  | Z0 => 0%float
  | Zpos p => SF2Prim (S754_finite false p 0)
  | Zneg p => SF2Prim (S754_finite true p 0)
  end.

(** *** [repr] of a float (the shortest digit string that reads back as the
    same float, laid out as [float_repr_style = 'short'] does) *)

(** A positive rational [n / d] with [d > 0], compared by cross
    multiplication. *)
Definition rat : Type := Z * Z.
Definition rle (a b : rat) : bool := fst a * snd b <=? fst b * snd a.
Definition rlt (a b : rat) : bool := fst a * snd b <? fst b * snd a.
Definition rmul10 (q : Z) (a : rat) : rat :=
  if 0 <=? q then (fst a * 10 ^ q, snd a) else (fst a, snd a * 10 ^ (- q)).
Definition rpow2 (z e : Z) : rat :=
  if 0 <=? e then (z * 2 ^ e, 1) else (z, 2 ^ (- e)).

(** The decimal exponent [k] of [x > 0]: [10^k <= x < 10^(k+1)], searched
    downwards from a [k] that is not below it. *)
Fixpoint decimal_exponent (fuel : nat) (k : Z) (x : rat) : Z :=
  match fuel with
  | O => k
  | S fuel' => if rle (rmul10 k (1, 1)) x then k else decimal_exponent fuel' (k - 1) x
  end.

(** The digits of the shortest decimal in the rounding interval of
    [m * 2^e], nearest to it, with the position of the decimal point:
    the value is [0.d1 d2 ... dn * 10^decpt]. *)
Fixpoint shortest (fuel : nat) (n : Z) (k : Z) (x lo hi : rat) (closed : bool)
  : Z * Z :=
  let q := k + 1 - n in
  let xs := rmul10 (- q) x in
  let f := fst xs / snd xs in
  let c := f + 1 in
  let inside (d : Z) :=
    let v := rmul10 q (d, 1) in
    if closed then rle lo v && rle v hi else rlt lo v && rlt v hi in
  let twice_x := (2 * fst xs, snd xs) in
  let mid := (f + c, 1) in
  let pick :=
    match inside f, inside c with
    | true, true =>
        if rlt twice_x mid then Some f
        else if rlt mid twice_x then Some c
        else Some (if Z.even f then f else c)
    | true, false => Some f
    | false, true => Some c
    | false, false => None
    end in
  match pick, fuel with
  | Some d, _ => if d =? 10 ^ n then (1, k + 2) else (d, k + 1)
  | None, O => (f, k + 1)
  | None, S fuel' => shortest fuel' (n + 1) k x lo hi closed
  end.

Definition digit_char (d : Z) : ascii := ascii_of_N (Z.to_N (48 + d)).

Fixpoint digits_acc (fuel : nat) (z : Z) (acc : string) : string :=
  match fuel with
  | O => acc
  | S fuel' =>
      let acc' := String (digit_char (z mod 10)) acc in
      if z <? 10 then acc' else digits_acc fuel' (z / 10) acc'
  end.

(** [str(z)] for an integer [z >= 0]. *)
Definition digits (z : Z) : string :=
  digits_acc (S (Z.to_nat (Z.log2 z))) z EmptyString.

Definition zeros (n : Z) : string :=
  string_of_list_ascii (repeat "0"%char (Z.to_nat n)).

(** The layout of [repr]: exponent notation when [decpt <= -4] or
    [decpt > 16], otherwise positional with at least one digit after the
    point. *)
Definition layout (ds : string) (decpt : Z) : string :=
  let n := Z.of_nat (String.length ds) in
  if (decpt <=? -4) || (16 <? decpt) then
    let e := decpt - 1 in
    let mant :=
      match ds with
      | String d EmptyString => ds
      | String d rest => String d (String "."%char rest)
      | EmptyString => ds
      end in
    let es := digits (Z.abs e) in
    String.append mant
      (String.append (if e <? 0 then "e-" else "e+")
         (if Z.abs e <? 10 then String "0"%char es else es))
  else if decpt <=? 0 then
    String.append "0." (String.append (zeros (- decpt)) ds)
  else if n <=? decpt then
    String.append ds (String.append (zeros (decpt - n)) ".0")
  else
    String.append (substring 0 (Z.to_nat decpt) ds)
      (String "."%char (substring (Z.to_nat decpt) (Z.to_nat (n - decpt)) ds)).

(** [repr(x)], which is also [str(x)] and what an f-string inserts. *)
Definition float_repr (x : float) : string :=
  match Prim2SF x with
  | S754_nan => "nan"
  | S754_infinity false => "inf"
  | S754_infinity true => "-inf"
  | S754_zero false => "0.0"
  | S754_zero true => "-0.0"
  | S754_finite s m e =>
      let mz := Zpos m in
      let narrow := (mz =? 2 ^ 52) && (-1074 <? e) in
      let xr := rpow2 (4 * mz) (e - 2) in
      let lo := rpow2 (4 * mz - (if narrow then 1 else 2)) (e - 2) in
      let hi := rpow2 (4 * mz + 2) (e - 2) in
      let bits := Z.log2 mz + 1 + e in
      let k := decimal_exponent 4 (bits * 30103 / 100000 + 1) xr in
      let '(d, decpt) := shortest 17 1 k xr lo hi (Z.even mz) in
      String.append (if s then "-" else "") (layout (digits d) decpt)
  end.

(** *** [datetime.fromtimestamp] and [datetime.timestamp] *)

(** A naive datetime, in microseconds since 1970-01-01T00:00:00. *)
Definition datetime : Type := Z.

(** Seconds of the first and last instants [fromtimestamp] accepts:
    0001-01-02T00:00:00 (the fold probe of the day before must stay in
    year 1) and 9999-12-31T23:59:59. *)
Definition MIN_SECONDS : Z := -62135510400.
Definition MAX_SECONDS : Z := 253402300799.

(** The integer nearest to a finite float, ties to even. *)
Definition round_half_even (x : float) : Z :=
  match Prim2SF x with
  | S754_finite s m e =>
      let r :=
        if 0 <=? e then Zpos m * 2 ^ e
        else
          let d := 2 ^ (- e) in
          let q := Zpos m / d in
          let rem2 := 2 * (Zpos m mod d) in
          if rem2 <? d then q
          else if d <? rem2 then q + 1
          else if Z.even q then q else q + 1 in
      if s then - r else r
  | _ => 0
  end.

(** [datetime.fromtimestamp(t)] for a float [t]: [None] when it raises
    (a [ValueError], [OverflowError] or [OSError], all of them subclasses of
    [Exception]).  The seconds are cut off towards zero, the rest is
    scaled by 1e6 in floating point and rounded half to even. *)
Definition fromtimestamp (t : float) : option datetime :=
  match Prim2SF t with
  | S754_nan => None
  | S754_infinity _ => None
  | S754_zero _ => Some 0
  | S754_finite s m e =>
      let ip := (if s then -1 else 1) *
                (if 0 <=? e then Zpos m * 2 ^ e else Zpos m / 2 ^ (- e)) in
      let fp := if 0 <=? e then 0%float else PrimFloat.sub t (of_Z ip) in
      let us := round_half_even (PrimFloat.mul fp 1e6%float) in
      let '(sec, us) :=
        if 1000000 <=? us then (ip + 1, us - 1000000)
        else if us <? 0 then (ip - 1, us + 1000000)
        else (ip, us) in
      if (MIN_SECONDS <=? sec) && (sec <=? MAX_SECONDS)
      then Some (sec * 1000000 + us) else None
  end.

(** [d.timestamp()] for a naive datetime [d]: the whole seconds plus the
    microseconds divided by 1e6, in floating point. *)
Definition timestamp (d : datetime) : float :=
  PrimFloat.add (of_Z (d / 1000000))
                (PrimFloat.div (of_Z (d mod 1000000)) 1e6%float).

(** [timedelta(seconds=n)], in microseconds. *)
Definition timedelta_seconds (n : Z) : Z := n * 1000000.

End PyFloat.

(** ** Core_Control/signature_verifier.py *)

Module SignatureVerifier.
Import Bytes PyFloat.

(** The state of a [SignatureVerifier]: the encoded secret and the maximum
    age as a timedelta (microseconds). *)
Record t := mk { _secret_key : bytes; _max_age : Z }.

(** [timedelta] holds at most 999999999 days either way. *)
Definition MAX_DELTA_DAYS : Z := 999999999.

(** [SignatureVerifier(secret_key, max_age)]; [None] when
    [timedelta(seconds=max_age)] raises [OverflowError]. *)
Definition init (secret_key : string) (max_age : Z) : option t :=
  let days := max_age / 86400 in
  if (- MAX_DELTA_DAYS <=? days) && (days <=? MAX_DELTA_DAYS)
  then Some {| _secret_key := utf8_encode secret_key;
               _max_age := timedelta_seconds max_age |}
  else None.

(** [hmac.compare_digest] on two byte strings: whether they are equal. *)
Definition compare_digest (a b : bytes) : bool := bool_decide (a = b).

(** [generate_signature(message, timestamp)]; [now] is the reading of
    [datetime.now()], taken only when [timestamp] is [None]. *)
Definition generate_signature (self : t) (message : string)
    (timestamp : option float) (now : datetime) : string :=
  let timestamp :=
    match timestamp with
    | None => PyFloat.timestamp now
    | Some ts => ts
    end in
  let message_with_timestamp :=
    String.append message (String.append "|" (float_repr timestamp)) in
  let signature :=
    Sha256.hmac_sha256 (_secret_key self) (utf8_encode message_with_timestamp) in
  ascii_decode (Base64.b64encode signature).

(** The outcome of the age check at the head of [verify_signature]:
    [None] when [datetime.fromtimestamp] raises, otherwise whether the
    signature has expired.  The check runs only for a timestamp whose truth
    value is true. *)
Definition age_check (self : t) (timestamp : option float) (now : datetime)
  : option bool :=
  match timestamp with
  | Some ts =>
      if float_bool ts then
        match fromtimestamp ts with
        | Some sig_time => Some (_max_age self <? now - sig_time)
        | None => None
        end
      else Some false
  | None => Some false
  end.

(** [verify_signature(message, signature, timestamp)]; [now] is the one
    reading of [datetime.now()] the call takes (for the age check, or inside
    [generate_signature] when [timestamp] is [None]).  Whatever is raised in
    the body is an [Exception] and turns into [False]. *)
Definition verify_signature (self : t) (message signature : string)
    (timestamp : option float) (now : datetime) : bool :=
  match age_check self timestamp now with
  | None => false
  | Some true => false
  | Some false =>
      let expected_signature := generate_signature self message timestamp now in
      compare_digest (utf8_encode signature) (utf8_encode expected_signature)
  end.

(** [update_secret_key(new_secret_key)] *)
Definition update_secret_key (self : t) (new_secret_key : string) : t :=
  {| _secret_key := utf8_encode new_secret_key; _max_age := _max_age self |}.

End SignatureVerifier.

(** ** Regular expressions ([re]), as far as [COMMAND_PATTERN] needs them *)

Module Re.
Import Bytes.

(** The code points from 128 to 255 that [\w] matches in a [str] pattern
    (letters and numeric characters of Latin-1). *)
Definition latin1_word (n : Z) : bool :=
  (n =? 170) || (n =? 178) || (n =? 179) || (n =? 181) || (n =? 185) ||
  (n =? 186) || (n =? 188) || (n =? 189) || (n =? 190) ||
  ((192 <=? n) && (n <=? 255) && negb (n =? 215) && negb (n =? 247)).

(** [\w] *)
Definition is_word (c : ascii) : bool :=
  let n := code c in
  ((48 <=? n) && (n <=? 57)) || ((65 <=? n) && (n <=? 90)) ||
  (n =? 95) || ((97 <=? n) && (n <=? 122)) || latin1_word n.

(** [[^}]] *)
Definition not_close_brace (c : ascii) : bool := negb (code c =? 125).

Inductive regex : Type :=
| Chr (c : ascii)                 (* one literal character *)
| Plus (cls : ascii -> bool)      (* [cls+], greedy *)
| Group (r : regex)               (* [(r)] *)
| Seq (r1 r2 : regex).

(** One or more characters of [cls], the longest run first, giving back
    one character at a time while the rest of the pattern fails. *)
Fixpoint match_plus {R} (cls : ascii -> bool) (s : string)
    (k : string -> option R) : option R :=
  match s with
  | String c s' =>
      if cls c then
        match match_plus cls s' k with
        | Some r => Some r
        | None => k s'
        end
      else None
  | EmptyString => None
  end.

(** What [r] consumed: [s] without its suffix [rest]. *)
Definition consumed (s rest : string) : string :=
  substring 0 (String.length s - String.length rest) s.

(** Matching [r] at the head of [s]; [k] continues with the rest of the
    text and the groups closed so far. *)
Fixpoint match_here {R} (r : regex) (s : string) (groups : list string)
    (k : string -> list string -> option R) : option R :=
  match r with
  | Chr c =>
      match s with
      | String c' s' => if Ascii.eqb c c' then k s' groups else None
      | EmptyString => None
      end
  | Plus cls => match_plus cls s (fun s' => k s' groups)
  | Group r' =>
      match_here r' s groups (fun s' g => k s' (g ++ [consumed s s']))
  | Seq r1 r2 =>
      match_here r1 s groups (fun s' g => match_here r2 s' g k)
  end.

(** [re.search(r, s)]: the groups of the leftmost match, if any. *)
Fixpoint search (r : regex) (s : string) : option (list string) :=
  match match_here r s [] (fun _ g => Some g) with
  | Some g => Some g
  | None =>
      match s with
      | String _ s' => search r s'
      | EmptyString => None
      end
  end.

End Re.

(** ** JSON decoding ([json.loads]) *)

Module Json.
Import Bytes.

(** Decoded text: a list of code points (an escape can name any). *)
Definition text : Type := list Z.

Definition text_of_string (s : string) : text := map code (list_ascii_of_string s).

(** What [json.loads] returns.  A number with a fraction or an exponent,
    and the constants NaN, Infinity and -Infinity, are Python floats, kept
    here as their literal; an object is a Python dict, kept as its items in
    insertion order. *)
Inductive json : Type :=
| JNull
| JBool (b : bool)
| JInt (n : Z)
| JFloat (literal : string)
| JStr (s : text)
| JArr (items : list json)
| JObj (items : list (text * json)).

(** [d[key] = value] on the items of a dict: a key already present keeps its
    place and takes the new value. *)
Fixpoint dict_set (key : text) (value : json) (d : list (text * json))
  : list (text * json) :=
  match d with
  | [] => [(key, value)]
  | (k, v) :: d' =>
      if bool_decide (k = key) then (k, value) :: d'
      else (k, v) :: dict_set key value d'
  end.

(** The outcome of scanning one item at a position: the item with the text
    and position after it, [StopIteration] (no value starts here), or a
    [JSONDecodeError] with its [msg] and [pos]. *)
Inductive scan (A : Type) : Type :=
| Scanned (v : A) (rest : string) (pos : Z)
| StopIteration (pos : Z)
| DecodeError (msg : string) (pos : Z).
Arguments Scanned {A} v rest pos.
Arguments StopIteration {A} pos.
Arguments DecodeError {A} msg pos.

Definition is_ws (c : ascii) : bool :=
  let n := code c in (n =? 32) || (n =? 9) || (n =? 10) || (n =? 13).

Definition is_digit (c : ascii) : bool :=
  let n := code c in (48 <=? n) && (n <=? 57).

Fixpoint skip_ws (s : string) (pos : Z) : string * Z :=
  match s with
  | String c s' => if is_ws c then skip_ws s' (pos + 1) else (s, pos)
  | EmptyString => (s, pos)
  end.

(** Whether [s] starts with [p]; the rest of [s] if it does. *)
Fixpoint strip_prefix (p s : string) : option string :=
  match p, s with
  | EmptyString, _ => Some s
  | String a p', String b s' => if Ascii.eqb a b then strip_prefix p' s' else None
  | String _ _, EmptyString => None
  end.

Definition hex_value (c : ascii) : option Z :=
  let n := code c in
  if (48 <=? n) && (n <=? 57) then Some (n - 48)
  else if (97 <=? n) && (n <=? 102) then Some (n - 87)
  else if (65 <=? n) && (n <=? 70) then Some (n - 55)
  else None.

(** The value of four hexadecimal digits. *)
Definition hex4 (a b c d : ascii) : option Z :=
  match hex_value a, hex_value b, hex_value c, hex_value d with
  | Some x, Some y, Some z, Some w => Some (((x * 16 + y) * 16 + z) * 16 + w)
  | _, _, _, _ => None
  end.

Definition is_high_surrogate (c : Z) : bool := (0xD800 <=? c) && (c <=? 0xDBFF).
Definition is_low_surrogate (c : Z) : bool := (0xDC00 <=? c) && (c <=? 0xDFFF).
Definition join_surrogates (hi lo : Z) : Z :=
  0x10000 + Z.lor (Z.shiftl (Z.land hi 0x3FF) 10) (Z.land lo 0x3FF).

(** The character a one-letter escape stands for. *)
Definition simple_escape (c : ascii) : option Z :=
  let n := code c in
  if (n =? 34) || (n =? 92) || (n =? 47) then Some n
  else if n =? 98 then Some 8
  else if n =? 102 then Some 12
  else if n =? 110 then Some 10
  else if n =? 114 then Some 13
  else if n =? 116 then Some 9
  else None.

(** The body of a string literal, strict mode.  [s] is the text after the
    opening quote, which stands at [begin]; [pos] is the position of [s];
    [acc] holds the characters decoded so far, last first.  The scanner
    takes a four-digit escape only when some text follows it. *)
Fixpoint scanstring (fuel : nat) (s : string) (begin pos : Z) (acc : text)
  : scan text :=
  match fuel with
  | O => DecodeError "Unterminated string starting at" begin
  | S fuel' =>
      match s with
      | EmptyString => DecodeError "Unterminated string starting at" begin
      | String c s' =>
          let n := code c in
          if n =? 34 then Scanned (rev acc) s' (pos + 1)
          else if n =? 92 then
            match s' with
            | EmptyString => DecodeError "Unterminated string starting at" begin
            | String e s'' =>
                if code e =? 117 then
                  match s'' with
                  | String h1 (String h2 (String h3 (String h4 (String _ _ as s4)))) =>
                      match hex4 h1 h2 h3 h4 with
                      | None => DecodeError "Invalid \uXXXX escape" (pos + 1)
                      | Some u =>
                          match s4 with
                          | String b (String v (String g1 (String g2 (String g3
                              (String g4 (String _ _ as s10)))))) =>
                              if is_high_surrogate u && (code b =? 92) && (code v =? 117) then
                                match hex4 g1 g2 g3 g4 with
                                | None => DecodeError "Invalid \uXXXX escape" (pos + 7)
                                | Some u2 =>
                                    if is_low_surrogate u2
                                    then scanstring fuel' s10 begin (pos + 12)
                                           (join_surrogates u u2 :: acc)
                                    else scanstring fuel' s4 begin (pos + 6) (u :: acc)
                                end
                              else scanstring fuel' s4 begin (pos + 6) (u :: acc)
                          | _ => scanstring fuel' s4 begin (pos + 6) (u :: acc)
                          end
                      end
                  | _ => DecodeError "Invalid \uXXXX escape" (pos + 1)
                  end
                else
                  match simple_escape e with
                  | Some x => scanstring fuel' s'' begin (pos + 2) (x :: acc)
                  | None => DecodeError "Invalid \escape" pos
                  end
            end
          else if n <=? 31 then DecodeError "Invalid control character at" pos
          else scanstring fuel' s' begin (pos + 1) (n :: acc)
      end
  end.

(** The longest run of digits at the head of [s]. *)
Fixpoint span_digits (s : string) : string * string :=
  match s with
  | String c s' =>
      if is_digit c then let '(d, r) := span_digits s' in (String c d, r)
      else (EmptyString, s)
  | EmptyString => (EmptyString, s)
  end.

(** The value of a string of decimal digits. *)
Definition int_of_digits (d : string) : Z :=
  fold_left (fun acc c => acc * 10 + (code c - 48)) (list_ascii_of_string d) 0.

(** A number at the head of [s]: an integer part, then a fraction and an
    exponent where they are complete. *)
Definition match_number (s : string) (pos : Z) : scan json :=
  let '(neg, s1) :=
    match s with
    | String c s' => if code c =? 45 then (true, s') else (false, s)
    | EmptyString => (false, s)
    end in
  let int_part :=
    match s1 with
    | String c s' =>
        if code c =? 48 then Some (String c EmptyString, s')
        else if is_digit c then let '(d, r) := span_digits s' in Some (String c d, r)
        else None
    | EmptyString => None
    end in
  match int_part with
  | None => StopIteration pos
  | Some (ds, s2) =>
      let '(frac, s3) :=
        match s2 with
        | String dot (String c s') =>
            if (code dot =? 46) && is_digit c
            then let '(d, r) := span_digits s' in (String dot (String c d), r)
            else (EmptyString, s2)
        | _ => (EmptyString, s2)
        end in
      let '(expo, s4) :=
        match s3 with
        | String e s' =>
            if (code e =? 101) || (code e =? 69) then
              let '(sign, s'') :=
                match s' with
                | String c (String c' r) =>
                    if (code c =? 45) || (code c =? 43)
                    then (String c EmptyString, String c' r) else (EmptyString, s')
                | _ => (EmptyString, s')
                end in
              let '(d, r) := span_digits s'' in
              match d with
              | EmptyString => (EmptyString, s3)
              | _ => (String e (String.append sign d), r)
              end
            else (EmptyString, s3)
        | EmptyString => (EmptyString, s3)
        end in
      let lit := String.append (if neg then "-" else EmptyString)
                   (String.append ds (String.append frac expo)) in
      let pos' := pos + Z.of_nat (String.length lit) in
      match frac, expo with
      | EmptyString, EmptyString =>
          Scanned (JInt (if neg then - int_of_digits ds else int_of_digits ds)) s4 pos'
      | _, _ => Scanned (JFloat lit) s4 pos'
      end
  end.

(** A named constant at the head of [s], if one is spelled out there. *)
Definition match_constant (s : string) (pos : Z) : option (scan json) :=
  let try (name : string) (v : json) :=
    match strip_prefix name s with
    | Some rest => Some (Scanned v rest (pos + Z.of_nat (String.length name)))
    | None => None
    end in
  match s with
  | String c _ =>
      let n := code c in
      if n =? 110 then try "null" JNull
      else if n =? 116 then try "true" (JBool true)
      else if n =? 102 then try "false" (JBool false)
      else if n =? 78 then try "NaN" (JFloat "NaN")
      else if n =? 73 then try "Infinity" (JFloat "Infinity")
      else if n =? 45 then try "-Infinity" (JFloat "-Infinity")
      else None
  | EmptyString => None
  end.

(** [scan_once]: the value that starts at the head of [s]; with it, the
    items of an array after its opening bracket and the items of an object
    after its opening brace.  [fuel] bounds the number of calls. *)
Fixpoint scan_once (fuel : nat) (s : string) (pos : Z) : scan json :=
  match fuel with
  | O => StopIteration pos
  | S fuel' =>
      match s with
      | EmptyString => StopIteration pos
      | String c s' =>
          let n := code c in
          if n =? 34 then
            match scanstring (String.length s') s' pos (pos + 1) [] with
            | Scanned t rest p => Scanned (JStr t) rest p
            | StopIteration p => StopIteration p
            | DecodeError m p => DecodeError m p
            end
          else if n =? 123 then
            let '(s1, p1) := skip_ws s' (pos + 1) in
            match s1 with
            | String c1 s1' =>
                if code c1 =? 125 then Scanned (JObj []) s1' (p1 + 1)
                else parse_object fuel' s1 p1 []
            | EmptyString => parse_object fuel' s1 p1 []
            end
          else if n =? 91 then
            let '(s1, p1) := skip_ws s' (pos + 1) in
            match s1 with
            | String c1 s1' =>
                if code c1 =? 93 then Scanned (JArr []) s1' (p1 + 1)
                else parse_array fuel' s1 p1 []
            | EmptyString => parse_array fuel' s1 p1 []
            end
          else
            match match_constant s pos with
            | Some r => r
            | None => match_number s pos
            end
      end
  end

with parse_array (fuel : nat) (s : string) (pos : Z) (acc : list json)
  : scan json :=
  match fuel with
  | O => StopIteration pos
  | S fuel' =>
      match scan_once fuel' s pos with
      | Scanned v rest p =>
          let '(s1, p1) := skip_ws rest p in
          match s1 with
          | String c s1' =>
              if code c =? 93 then Scanned (JArr (rev (v :: acc))) s1' (p1 + 1)
              else if code c =? 44 then
                let '(s2, p2) := skip_ws s1' (p1 + 1) in
                parse_array fuel' s2 p2 (v :: acc)
              else DecodeError "Expecting ',' delimiter" p1
          | EmptyString => DecodeError "Expecting ',' delimiter" p1
          end
      | StopIteration p => StopIteration p
      | DecodeError m p => DecodeError m p
      end
  end

with parse_object (fuel : nat) (s : string) (pos : Z) (acc : list (text * json))
  : scan json :=
  match fuel with
  | O => StopIteration pos
  | S fuel' =>
      match s with
      | String q s' =>
          if code q =? 34 then
            match scanstring (String.length s') s' pos (pos + 1) [] with
            | Scanned key rest p =>
                let '(s1, p1) := skip_ws rest p in
                match s1 with
                | String colon s1' =>
                    if code colon =? 58 then
                      let '(s2, p2) := skip_ws s1' (p1 + 1) in
                      match scan_once fuel' s2 p2 with
                      | Scanned v rest' p3 =>
                          let acc' := dict_set key v acc in
                          let '(s3, p4) := skip_ws rest' p3 in
                          match s3 with
                          | String c s3' =>
                              if code c =? 125 then Scanned (JObj acc') s3' (p4 + 1)
                              else if code c =? 44 then
                                let '(s4, p5) := skip_ws s3' (p4 + 1) in
                                parse_object fuel' s4 p5 acc'
                              else DecodeError "Expecting ',' delimiter" p4
                          | EmptyString => DecodeError "Expecting ',' delimiter" p4
                          end
                      | StopIteration p => StopIteration p
                      | DecodeError m p => DecodeError m p
                      end
                    else DecodeError "Expecting ':' delimiter" p1
                | EmptyString => DecodeError "Expecting ':' delimiter" p1
                end
            | StopIteration p => StopIteration p
            | DecodeError m p => DecodeError m p
            end
          else DecodeError "Expecting property name enclosed in double quotes" pos
      | EmptyString =>
          DecodeError "Expecting property name enclosed in double quotes" pos
      end
  end.

(** What [json.loads] does: it returns a value or raises
    [JSONDecodeError(msg, doc, pos)]. *)
Inductive decoded : Type :=
| Decoded (value : json)
| JSONDecodeError (msg : string) (pos : Z).

(** [json.loads(s)] for a [str]: leading blanks, one value, trailing
    blanks, and nothing more.  Two limits of the interpreter are left out:
    on nesting deeper than the recursion limit and on integer literals
    longer than the digit limit Python raises [RecursionError] and
    [ValueError]; both reach the outer handler of [extract_command], which
    returns nothing. *)
Definition loads (s : string) : decoded :=
  let '(s0, p0) := skip_ws s 0 in
  match scan_once (2 * String.length s + 2) s0 p0 with
  | Scanned v rest p =>
      let '(s1, p1) := skip_ws rest p in
      match s1 with
      | EmptyString => Decoded v
      | String _ _ => JSONDecodeError "Extra data" p1
      end
  | StopIteration p => JSONDecodeError "Expecting value" p
  | DecodeError m p => JSONDecodeError m p
  end.

End Json.

(** ** Python values: truth value, [dict.get], the float of a literal *)

Module PyValue.
Import Bytes Json PyFloat.

(** The digits of a number literal before its exponent, without the point,
    with the count of those after the point; then the exponent. *)
Definition literal_parts (lit : string) : string * Z * Z :=
  let body :=
    match lit with
    | String c s' => if code c =? 45 then s' else lit
    | EmptyString => lit
    end in
  let '(ds, r1) := span_digits body in
  let '(fs, r2) :=
    match r1 with
    | String dot s' => if code dot =? 46 then span_digits s' else (EmptyString, r1)
    | EmptyString => (EmptyString, r1)
    end in
  let expo :=
    match r2 with
    | String e s' =>
        match s' with
        | String sign s'' =>
            if code sign =? 45 then - int_of_digits (fst (span_digits s''))
            else if code sign =? 43 then int_of_digits (fst (span_digits s''))
            else int_of_digits (fst (span_digits s'))
        | EmptyString => 0
        end
    | EmptyString => 0
    end in
  (String.append ds fs, Z.of_nat (String.length fs), expo).

(** Whether the float a number literal denotes is zero: its digits are all
    zero, or its value is at most 2^-1075, half of the smallest positive
    float, and rounds to zero. *)
Definition literal_is_zero (lit : string) : bool :=
  let '(ds, nfrac, expo) := literal_parts lit in
  let m := int_of_digits ds in
  let e := expo - nfrac in
  match ds with
  | EmptyString => false
  | String _ _ =>
      (m =? 0) || ((e <? 0) && (m * 2 ^ 1075 <=? 10 ^ (- e)))
  end.

(** [bool(v)] for a value [json.loads] can return. *)
Definition truthy (v : json) : bool :=
  match v with
  | JNull => false
  | JBool b => b
  | JInt n => negb (n =? 0)
  | JFloat lit => negb (literal_is_zero lit)
  | JStr s => match s with [] => false | _ :: _ => true end
  | JArr items => match items with [] => false | _ :: _ => true end
  | JObj items => match items with [] => false | _ :: _ => true end
  end.

(** [d.get(key)] on the items of a dict. *)
Fixpoint dict_get (d : list (text * json)) (key : text) : option json :=
  match d with
  | [] => None
  | (k, v) :: d' => if bool_decide (k = key) then Some v else dict_get d' key
  end.

(** [d.get(key, default)] *)
Definition dict_get_default (d : list (text * json)) (key : text) (default : json)
  : json :=
  match dict_get d key with
  | Some v => v
  | None => default
  end.

(** [bool(s)] for an [Optional[str]]: false for [None] and for the empty
    text. *)
Definition str_truthy (s : option string) : bool :=
  match s with
  | Some (String _ _) => true
  | _ => false
  end.

(** The float nearest to [m * 10^e] for [m > 0], ties to even, as
    [float(s)] rounds a decimal: the value is cut to 53 bits, or to the
    multiple of 2^-1074 below the normal range; beyond the largest float it
    is [inf].  The two tests before the division settle the values too
    large and too small to need it. *)
Definition nearest (m e : Z) : float :=
  let bits := Z.log2 m + 1 in
  if 309 <=? e then infinity
  else if (e <? 0) && (bits + 3 * e <=? -1076) then 0%float
  else
    let p := if 0 <=? e then m * 10 ^ e else m in
    let q := if 0 <=? e then 1 else 10 ^ (- e) in
    let b := Z.log2 p - Z.log2 q in
    let below := if 0 <=? b then p <? q * 2 ^ b else p * 2 ^ (- b) <? q in
    let exponent := if below then b - 1 else b in
    let shift := Z.max (exponent - 52) (-1074) in
    let num := if 0 <=? shift then p else p * 2 ^ (- shift) in
    let den := if 0 <=? shift then q * 2 ^ shift else q in
    let quo := num / den in
    let rem2 := 2 * (num mod den) in
    let n :=
      if rem2 <? den then quo
      else if den <? rem2 then quo + 1
      else if Z.even quo then quo else quo + 1 in
    let '(n, shift) := if n =? 2 ^ 53 then (2 ^ 52, shift + 1) else (n, shift) in
    if n =? 0 then 0%float
    else if 971 <? shift then infinity
    else SF2Prim (S754_finite false (Z.to_pos n) shift).

(** [float(s)] for the text of a JSON number with a fraction or an
    exponent, and for the three constants. *)
Definition float_of_literal (lit : string) : float :=
  if String.eqb lit "NaN" then nan
  else if String.eqb lit "Infinity" then infinity
  else if String.eqb lit "-Infinity" then neg_infinity
  else
    let negative :=
      match lit with
      | String c _ => code c =? 45
      | EmptyString => false
      end in
    let '(ds, nfrac, expo) := literal_parts lit in
    let m := int_of_digits ds in
    let magnitude := if m =? 0 then 0%float else nearest m (expo - nfrac) in
    if negative then PrimFloat.opp magnitude else magnitude.

(** [str(n)] for an integer. *)
Definition int_str (n : Z) : string :=
  if n <? 0 then String "-" (PyFloat.digits (- n)) else PyFloat.digits n.

End PyValue.

(** ** [pydantic]: the validation of [payload: Dict[str, Any]]

    The repository pins no version of pydantic, and the two major versions
    differ on a payload that is not a dict: version 2 refuses it, version 1
    first tries [dict(v)] on it and then turns the keys into text. *)

Module Pydantic.
Import Bytes Json PyFloat PyValue.

Inductive version : Type := V1 | V2.

(** What a hashable key is compared by.  [True], [1] and [1.0] are one key,
    and so are the zeros: a number that is an integer is compared as that
    integer.  The NaN of [json.loads] is one object, equal to itself as a
    key. *)
Inductive key : Type :=
| KNone
| KInt (z : Z)
| KFloat (x : float)
| KNan
| KStr (s : text).

Definition key_of_float (x : float) : key :=
  match Prim2SF x with
  | S754_nan => KNan
  | S754_zero _ => KInt 0
  | S754_infinity _ => KFloat x
  | S754_finite s m e =>
      let sign := if s then -1 else 1 in
      if 0 <=? e then KInt (sign * (Zpos m * 2 ^ e))
      else if Zpos m mod 2 ^ (- e) =? 0 then KInt (sign * (Zpos m / 2 ^ (- e)))
      else KFloat x
  end.

(** The key a value gives; [None] for a list or a dict, which cannot be
    hashed. *)
Definition key_of (v : json) : option key :=
  match v with
  | JNull => Some KNone
  | JBool b => Some (KInt (if b then 1 else 0))
  | JInt n => Some (KInt n)
  | JFloat lit => Some (key_of_float (float_of_literal lit))
  | JStr s => Some (KStr s)
  | JArr _ => None
  | JObj _ => None
  end.

Definition key_eqb (a b : key) : bool :=
  match a, b with
  | KNone, KNone => true
  | KInt x, KInt y => x =? y
  | KFloat x, KFloat y => PrimFloat.eqb x y
  | KNan, KNan => true
  | KStr s, KStr t => bool_decide (s = t)
  | _, _ => false
  end.

(** [d[k] = v] on the items of a dict whose keys are values: a key equal to
    one already present leaves that one in its place and gives it the new
    value. *)
Fixpoint set_item (k : json) (h : key) (v : json) (d : list (json * key * json))
  : list (json * key * json) :=
  match d with
  | [] => [(k, h, v)]
  | (k', h', v') :: d' =>
      if key_eqb h' h then (k', h', v) :: d'
      else (k', h', v') :: set_item k h v d'
  end.

(** The key and the value that one element of the sequence gives to
    [dict(v)]: the element must be iterable and hold two items.  A list
    gives its two items, a text its two characters, a dict its two keys. *)
Definition pair_of (item : json) : option (json * json) :=
  match item with
  | JArr [k; v] => Some (k, v)
  | JStr [a; b] => Some (JStr [a], JStr [b])
  | JObj [(k1, _); (k2, _)] => Some (JStr k1, JStr k2)
  | _ => None
  end.

(** [dict(items)] for a list; [None] when it raises [TypeError] or
    [ValueError]. *)
Fixpoint dict_of_pairs (items : list json) (d : list (json * key * json))
  : option (list (json * key * json)) :=
  match items with
  | [] => Some d
  | item :: rest =>
      match pair_of item with
      | Some (k, v) =>
          match key_of k with
          | Some h => dict_of_pairs rest (set_item k h v d)
          | None => None
          end
      | None => None
      end
  end.

(** [dict_validator(v)] of pydantic 1: a dict as it is, otherwise
    [dict(v)]; [None] for [DictError]. *)
Definition dict_validator (v : json) : option (list (json * json)) :=
  match v with
  | JObj items => Some (map (fun kv => (JStr (fst kv), snd kv)) items)
  | JArr items =>
      match dict_of_pairs items [] with
      | Some d => Some (map (fun e => (fst (fst e), snd e)) d)
      | None => None
      end
  | JStr [] => Some []
  | _ => None
  end.

(** [str_validator(k)] of pydantic 1 on a key: text as it is, a number
    (and a bool, which is one) through [str]; [None] for the error, which
    the key [None] gives too. *)
Definition str_validator (k : json) : option text :=
  match k with
  | JStr s => Some s
  | JBool b => Some (text_of_string (if b then "True" else "False"))
  | JInt n => Some (text_of_string (int_str n))
  | JFloat lit => Some (text_of_string (float_repr (float_of_literal lit)))
  | _ => None
  end.

(** The loop over the items of the dict: each key validated, each value
    kept, and the result filled in that order. *)
Fixpoint validate_items (d : list (json * json)) (result : list (text * json))
  : option (list (text * json)) :=
  match d with
  | [] => Some result
  | (k, v) :: d' =>
      match str_validator k with
      | Some s => validate_items d' (dict_set s v result)
      | None => None
      end
  end.

(** The validation of a [Dict[str, Any]] field on a value [json.loads]
    returns: the dict the model holds, or [None] for [ValidationError]. *)
Definition dict_field (pydantic : version) (v : json) : option (list (text * json)) :=
  match pydantic with
  | V2 =>
      match v with
      | JObj items => Some items
      | _ => None
      end
  | V1 =>
      match dict_validator v with
      | Some d => validate_items d []
      | None => None
      end
  end.

End Pydantic.

(** ** Exceptions and logging *)

Module Exc.

(** An exception object: its class, whether that class derives from
    [Exception] (and not from [BaseException] alone, as [SystemExit],
    [KeyboardInterrupt] and [asyncio.CancelledError] do), the text [str(e)]
    gives, and [__cause__]. *)
Inductive exn : Type :=
| Exn (cls : string) (is_Exception : bool) (msg : string) (cause : option exn).

Definition exn_class (e : exn) : string := let 'Exn c _ _ _ := e in c.
Definition exn_is_Exception (e : exn) : bool := let 'Exn _ b _ _ := e in b.
Definition exn_str (e : exn) : string := let 'Exn _ _ m _ := e in m.
Definition exn_cause (e : exn) : option exn := let 'Exn _ _ _ c := e in c.

(** The length of the [__cause__] chain. *)
Fixpoint exn_depth (e : exn) : nat :=
  match e with
  | Exn _ _ _ (Some c) => S (exn_depth c)
  | Exn _ _ _ None => O
  end.

(** [ValueError(msg)] *)
Definition ValueError (msg : string) : exn := Exn "ValueError" true msg None.

(** [RuntimeError(msg)] raised [from e] *)
Definition RuntimeError_from (msg : string) (e : exn) : exn :=
  Exn "RuntimeError" true msg (Some e).

(** A call returns a value or raises. *)
Inductive result (A : Type) : Type :=
| Ok (a : A)
| Raise (e : exn).
Arguments Ok {A} a.
Arguments Raise {A} e.

Inductive level : Type := DEBUG | INFO | WARNING | ERROR.

(** One call of [logger.debug], [.info], [.warning] or [.error]. *)
Definition LogRecord : Type := level * string.

End Exc.

(** ** Core_Control/command_router.py: [Command] *)

Module Command.
Import Json.

(** A [Command] once validated: [payload] is a dict. *)
Record t := mk {
  command_type : string;
  target_system : string;
  payload : list (text * json);
  signature : option string;
  timestamp : option float
}.

(** [Command(command_type=.., target_system=.., payload=.., timestamp=..)]
    with text for the two names and a float for the timestamp: the one field
    whose validation can fail is [payload: Dict[str, Any]], given what
    [json.loads] returned.  [None] stands for [ValidationError];
    [signature] keeps its default. *)
Definition validate (pydantic : Pydantic.version)
    (command_type target_system : string) (payload : json) (timestamp : float)
  : option t :=
  match Pydantic.dict_field pydantic payload with
  | Some items =>
      Some {| command_type := command_type;
              target_system := target_system;
              payload := items;
              signature := None;
              timestamp := Some timestamp |}
  | None => None
  end.

End Command.

(** ** Core_Control/message_processor.py *)

Module MessageProcessor.
Import Bytes PyFloat Re Json.

(** [COMMAND_PATTERN = r'#(\w+)@(\w+)\{([^}]+)\}'] *)
Definition COMMAND_PATTERN : regex :=
  Seq (Chr "#")
    (Seq (Group (Plus is_word))
       (Seq (Chr "@")
          (Seq (Group (Plus is_word))
             (Seq (Chr "{")
                (Seq (Group (Plus not_close_brace)) (Chr "}")))))).

(** The state of a [MessageProcessor]. *)
Record t := mk { _command_cache : gmap string Command.t }.

(** [MessageProcessor()] *)
Definition init : t := {| _command_cache := ∅ |}.

(** What an f-string inserts for an [Optional[float]]. *)
Definition format_timestamp (ts : option float) : string :=
  match ts with
  | Some x => float_repr x
  | None => "None"
  end.

(** [_generate_cache_key(command)] *)
Definition _generate_cache_key (command : Command.t) : string :=
  String.append (Command.command_type command)
    (String.append "_"
       (String.append (Command.target_system command)
          (String.append "_" (format_timestamp (Command.timestamp command))))).

(** [extract_command(message)] with [pydantic] installed; [now] is the
    reading of [datetime.now()] taken when the command is built.  Each branch that gives [None] is one
    of the returns of the source: no match, the [JSONDecodeError] handler,
    and the outer handler, which the [ValidationError] of [Command]
    reaches. *)
Definition extract_command (pydantic : Pydantic.version) (self : t)
    (message : string) (now : datetime) : option Command.t * t :=
  match search COMMAND_PATTERN message with
  | None => (None, self)
  | Some [command_type; target_system; payload_str] =>
      match loads payload_str with
      | JSONDecodeError _ _ => (None, self)
      | Decoded payload =>
          match Command.validate pydantic command_type target_system payload
                  (PyFloat.timestamp now) with
          | None => (None, self)
          | Some command =>
              (Some command,
               {| _command_cache :=
                    <[_generate_cache_key command := command]>
                      (_command_cache self) |})
          end
      end
  | Some _ => (None, self)
  end.

(** A value of the metadata dict. *)
Inductive meta : Type :=
| MFloat (x : float)
| MInt (n : Z)
| MBool (b : bool)
| MStr (s : string).

(** [process_message(message)]; [now0] is the clock reading for the
    metadata, [now1] the one [extract_command] takes. *)
Definition process_message (pydantic : Pydantic.version) (self : t)
    (message : string) (now0 now1 : datetime)
  : (option Command.t * gmap string meta) * t :=
  let metadata : gmap string meta :=
    <["has_command" := MBool false]>
      (<["length" := MInt (Z.of_nat (String.length message))]>
         (<["timestamp" := MFloat (PyFloat.timestamp now0)]> ∅)) in
  let '(command, self') := extract_command pydantic self message now1 in
  match command with
  | Some c =>
      let metadata :=
        <["target_system" := MStr (Command.target_system c)]>
          (<["command_type" := MStr (Command.command_type c)]>
             (<["has_command" := MBool true]> metadata)) in
      ((command, metadata), self')
  | None => ((command, metadata), self')
  end.

(** [get_cached_command(cache_key)] *)
Definition get_cached_command (self : t) (cache_key : string) : option Command.t :=
  _command_cache self !! cache_key.

(** [clear_cache()] *)
Definition clear_cache (self : t) : t := {| _command_cache := ∅ |}.

End MessageProcessor.

(** ** Core_Control/command_router.py: [CommandRouter] *)

Module CommandRouter.
Import Exc.

Section Router.

(** What handlers act on (connections, sessions, the outside world), and
    what they answer. *)
Context {World Response : Type}.

(** A [CommandHandler] instance: its one capability. *)
Record Handler := mkHandler {
  handle_command : Command.t -> World -> result Response * World
}.

(** A handler class: calling it builds an instance, or raises. *)
Record HandlerClass := mkHandlerClass {
  instantiate : World -> result Handler * World
}.

(** The state of a [CommandRouter]. *)
Record t := mk {
  _handlers : gmap string HandlerClass;
  _initialized : bool
}.

(** [CommandRouter()] *)
Definition init : t * list LogRecord :=
  ({| _handlers := ∅; _initialized := false |},
   [(INFO, "Initializing CommandRouter")]).

(** [register_handler(system_name, handler)] *)
Definition register_handler (self : t) (system_name : string)
    (handler : HandlerClass) : t * list LogRecord :=
  let warn :=
    match _handlers self !! system_name with
    | Some _ =>
        [(WARNING, String.append "Overwriting existing handler for " system_name)]
    | None => []
    end in
  ({| _handlers := <[system_name := handler]> (_handlers self);
      _initialized := _initialized self |},
   warn ++ [(INFO, String.append "Registered handler for " system_name)]).

(** [_initialize_handlers()] *)
Definition _initialize_handlers (self : t) : t * list LogRecord :=
  ({| _handlers := _handlers self; _initialized := true |},
   [(INFO, "Command handlers initialized")]).

(** The two calls of the [try] block: [handler_class()] and
    [handler.handle_command(command)]. *)
Definition invoke (handler_class : HandlerClass) (command : Command.t)
    (w : World) : result Response * World :=
  match instantiate handler_class w with
  | (Ok handler, w1) => handle_command handler command w1
  | (Raise e, w1) => (Raise e, w1)
  end.

(** [route_command(command)], run to completion: the value or the
    exception, the router, the world and the log records after it.  A
    handler class stored in the registry counts as true; [except
    Exception] lets pass what does not derive from [Exception]. *)
Definition route_command (self : t) (command : Command.t) (w : World)
  : result Response * t * World * list LogRecord :=
  let '(self, log) :=
    if _initialized self then (self, []) else _initialize_handlers self in
  let target := Command.target_system command in
  match _handlers self !! target with
  | None =>
      let error_msg := String.append "No handler found for system: " target in
      (Raise (ValueError error_msg), self, w, log ++ [(ERROR, error_msg)])
  | Some handler_class =>
      match invoke handler_class command w with
      | (Ok response, w') =>
          (Ok response, self, w',
           log ++ [(INFO, String.append "Successfully routed command to " target)])
      | (Raise e, w') =>
          if exn_is_Exception e then
            let error_msg :=
              String.append "Error handling command for "
                (String.append target (String.append ": " (exn_str e))) in
            (Raise (RuntimeError_from error_msg e), self, w',
             log ++ [(ERROR, error_msg)])
          else (Raise e, self, w', log)
      end
  end.

End Router.

Arguments Handler : clear implicits.
Arguments HandlerClass : clear implicits.
Arguments t : clear implicits.

End CommandRouter.

(** ** Core_Control/main.py: [CoreControl] *)

Module CoreControl.
Import Exc Json.

Section Core.

Context {World Response : Type}.

(** [str(d)] for a payload dict, a function of the runtime. *)
Variable payload_str : list (text * json) -> string.

(** The three components of a [CoreControl]. *)
Record t := mk {
  router : CommandRouter.t World Response;
  verifier : SignatureVerifier.t;
  processor : MessageProcessor.t
}.

(** The key of the verifier when [SIGNATURE_KEY] is not set. *)
Definition DEFAULT_KEY : string := "default-key-change-in-production".

(** [CoreControl()]; [signature_key] is what the environment holds for
    [SIGNATURE_KEY] once [load_dotenv()] has run.  The verifier takes the default maximum age of 300
    seconds; [None] stands for the [OverflowError] of its constructor.  No
    handler is registered. *)
Definition init (signature_key : option string) : option (t * list LogRecord) :=
  let '(router, log) := @CommandRouter.init World Response in
  let key := match signature_key with Some k => k | None => DEFAULT_KEY end in
  match SignatureVerifier.init key 300 with
  | Some verifier =>
      Some ({| router := router; verifier := verifier;
               processor := MessageProcessor.init |}, log)
  | None => None
  end.

(** A value of the dict [process_input] returns. *)
Inductive value : Type :=
| VStr (s : string)
| VMetadata (m : gmap string MessageProcessor.meta)
| VResult (r : Response).

(** The three dicts [process_input] returns before it routes or after a
    failure. *)
Definition no_command (metadata : gmap string MessageProcessor.meta)
  : gmap string value :=
  <["metadata" := VMetadata metadata]>
    (<["message" := VStr "No valid command found"]>
       (<["status" := VStr "error"]> ∅)).

Definition invalid_signature (metadata : gmap string MessageProcessor.meta)
  : gmap string value :=
  <["metadata" := VMetadata metadata]>
    (<["message" := VStr "Invalid command signature"]>
       (<["status" := VStr "error"]> ∅)).

Definition processing_error (e : exn) : gmap string value :=
  <["metadata" := VMetadata (<["error" := MessageProcessor.MStr (exn_str e)]> ∅)]>
    (<["message" := VStr (String.append "Error processing command: " (exn_str e))]>
       (<["status" := VStr "error"]> ∅)).

Definition succeeded (response : Response)
    (metadata : gmap string MessageProcessor.meta) : gmap string value :=
  <["metadata" := VMetadata metadata]>
    (<["result" := VResult response]>
       (<["message" := VStr "Command executed successfully"]>
          (<["status" := VStr "success"]> ∅))).

(** The body of [process_input] once [process_message] has returned the
    command [c]: the signature check, then the router.  [now] is the clock
    reading of [verify_signature].  The outer handler turns an [Exception] of
    the router into the error dict; what does not derive from [Exception]
    passes. *)
Definition execute (self : t) (c : Command.t)
    (metadata : gmap string MessageProcessor.meta) (now : PyFloat.datetime)
    (w : World)
  : result (gmap string value) * t * World * list LogRecord :=
  let rejected :=
    match Command.signature c with
    | Some (String a s) =>
        negb (SignatureVerifier.verify_signature (verifier self)
                (payload_str (Command.payload c)) (String a s)
                (Command.timestamp c) now)
    | _ => false
    end in
  if rejected then (Ok (invalid_signature metadata), self, w, [])
  else
    let '(r, router', w', log) := CommandRouter.route_command (router self) c w in
    let self' :=
      {| router := router'; verifier := verifier self; processor := processor self |} in
    match r with
    | Ok response => (Ok (succeeded response metadata), self', w', log)
    | Raise e =>
        if exn_is_Exception e then (Ok (processing_error e), self', w', log)
        else (Raise e, self', w', log)
    end.

(** [process_input(input_text)], run to completion.  [now0] and [now1] are
    the clock readings of [process_message], [now2] the one of
    [verify_signature]. *)
Definition process_input (pydantic : Pydantic.version) (self : t)
    (input_text : string) (now0 now1 now2 : PyFloat.datetime) (w : World)
  : result (gmap string value) * t * World * list LogRecord :=
  let '((command, metadata), processor') :=
    MessageProcessor.process_message pydantic (processor self) input_text
      now0 now1 in
  let self' :=
    {| router := router self; verifier := verifier self; processor := processor' |} in
  match command with
  | None => (Ok (no_command metadata), self', w, [])
  | Some c => execute self' c metadata now2 w
  end.

End Core.

Arguments t : clear implicits.
Arguments value : clear implicits.

End CoreControl.

(** ** Command_Network/handlers: the three command handlers

    What the handlers call outside the repository (the environment, the
    platform libraries and the built-in [int]) is an interface: a record of
    functions on the world, each returning a value or raising.  The fields
    of a handler that only its polling loop reads, and the [logging] calls,
    are left out. *)

Module Handlers.
Import Exc Json PyValue.

(** The dict [{"status": status, "message": message}]. *)
Definition reply (status message : string) : gmap string string :=
  <["message" := message]> (<["status" := status]> ∅).

(** The [except Exception as e] clause of a [handle_command]: the error
    dict, its message led by [prefix]; what does not derive from [Exception]
    passes. *)
Definition caught {World : Type} (prefix : string) (e : exn) (w : World)
  : result (gmap string string) * World :=
  if exn_is_Exception e
  then (Ok (reply "error" (String.append prefix (exn_str e))), w)
  else (Raise e, w).

(** The content of a message when the payload names none. *)
Definition NO_CONTENT : json := JStr (text_of_string "No content provided").

(** *** telegram_handler.py *)

Record TelegramApi (World App : Type) := {
  (* os.getenv(name) *)
  tg_getenv : World -> string -> option string;
  (* Application.builder().token(token).build(), then the two add_handler *)
  tg_build : string -> World -> result App * World;
  (* await application.bot.send_message(chat_id=.., text=..) *)
  tg_send_message : App -> json -> json -> World -> result unit * World
}.
Arguments tg_getenv {World App}.
Arguments tg_build {World App}.
Arguments tg_send_message {World App}.

Module Telegram.
Section Telegram.
Context {World App : Type} (api : TelegramApi World App).

Record t := mk { token : string; application : App }.

(** [TelegramHandler()] *)
Definition init (w : World) : result t * World :=
  match tg_getenv api w "TELEGRAM_BOT_TOKEN" with
  | Some (String a s) =>
      match tg_build api (String a s) w with
      | (Ok app, w') => (Ok {| token := String a s; application := app |}, w')
      | (Raise e, w') => (Raise e, w')
      end
  | _ => (Raise (ValueError "TELEGRAM_BOT_TOKEN environment variable not set"), w)
  end.

(** [handle_command(command)] *)
Definition handle_command (self : t) (command : Command.t) (w : World)
  : result (gmap string string) * World :=
  let chat_id := dict_get (Command.payload command) (text_of_string "chat_id") in
  let content :=
    dict_get_default (Command.payload command) (text_of_string "content") NO_CONTENT in
  match chat_id with
  | Some id =>
      if truthy id then
        match tg_send_message api (application self) id content w with
        | (Ok _, w') => (Ok (reply "success" "Message sent"), w')
        | (Raise e, w') => caught "Error handling Telegram command: " e w'
        end
      else (Ok (reply "error" "Invalid chat ID or missing content"), w)
  | None => (Ok (reply "error" "Invalid chat ID or missing content"), w)
  end.

(** The class as the router holds it. *)
Definition handler_class : CommandRouter.HandlerClass World (gmap string string) :=
  {| CommandRouter.instantiate := fun w =>
       match init w with
       | (Ok self, w') =>
           (Ok {| CommandRouter.handle_command := handle_command self |}, w')
       | (Raise e, w') => (Raise e, w')
       end |}.

End Telegram.
End Telegram.

(** *** discord_handler.py *)

Record DiscordApi (World Bot Channel : Type) := {
  (* os.getenv(name) *)
  dc_getenv : World -> string -> option string;
  (* commands.Bot(command_prefix="!", intents=discord.Intents.all()) *)
  dc_bot : World -> result Bot * World;
  (* bot.event(on_ready), then bot.event(on_message) *)
  dc_events : Bot -> World -> result unit * World;
  (* int(channel_id) *)
  dc_int : json -> result Z;
  (* await bot.fetch_channel(n) *)
  dc_fetch_channel : Bot -> Z -> World -> result Channel * World;
  (* bool(channel) *)
  dc_channel_bool : Channel -> bool;
  (* await channel.send(content) *)
  dc_send : Channel -> json -> World -> result unit * World
}.
Arguments dc_getenv {World Bot Channel}.
Arguments dc_bot {World Bot Channel}.
Arguments dc_events {World Bot Channel}.
Arguments dc_int {World Bot Channel}.
Arguments dc_fetch_channel {World Bot Channel}.
Arguments dc_channel_bool {World Bot Channel}.
Arguments dc_send {World Bot Channel}.

Module Discord.
Section Discord.
Context {World Bot Channel : Type} (api : DiscordApi World Bot Channel).

Record t := mk { bot : Bot; token : string }.

(** [DiscordCommandHandler()]: the bot is built before the token is
    looked up. *)
Definition init (w : World) : result t * World :=
  match dc_bot api w with
  | (Raise e, w1) => (Raise e, w1)
  | (Ok b, w1) =>
      match dc_getenv api w1 "DISCORD_BOT_TOKEN" with
      | Some (String a s) =>
          match dc_events api b w1 with
          | (Ok _, w2) => (Ok {| bot := b; token := String a s |}, w2)
          | (Raise e, w2) => (Raise e, w2)
          end
      | _ => (Raise (ValueError "DISCORD_BOT_TOKEN environment variable not set"), w1)
      end
  end.

Definition PREFIX : string := "Error handling Discord command: ".

(** [handle_command(command)] *)
Definition handle_command (self : t) (command : Command.t) (w : World)
  : result (gmap string string) * World :=
  let channel_id := dict_get (Command.payload command) (text_of_string "channel_id") in
  let content :=
    dict_get_default (Command.payload command) (text_of_string "content") NO_CONTENT in
  let invalid := (Ok (reply "error" "Invalid channel ID or missing content"), w) in
  match channel_id with
  | Some id =>
      if truthy id then
        match dc_int api id with
        | Raise e => caught PREFIX e w
        | Ok n =>
            match dc_fetch_channel api (bot self) n w with
            | (Raise e, w1) => caught PREFIX e w1
            | (Ok channel, w1) =>
                if dc_channel_bool api channel then
                  match dc_send api channel content w1 with
                  | (Ok _, w2) => (Ok (reply "success" "Message sent"), w2)
                  | (Raise e, w2) => caught PREFIX e w2
                  end
                else (Ok (reply "error" "Invalid channel ID or missing content"), w1)
            end
        end
      else invalid
  | None => invalid
  end.

(** The class as the router holds it. *)
Definition handler_class : CommandRouter.HandlerClass World (gmap string string) :=
  {| CommandRouter.instantiate := fun w =>
       match init w with
       | (Ok self, w') =>
           (Ok {| CommandRouter.handle_command := handle_command self |}, w')
       | (Raise e, w') => (Raise e, w')
       end |}.

End Discord.
End Discord.

(** *** email_handler.py *)

Record EmailApi (World Smtp Ctx Msg : Type) := {
  (* os.getenv(name) *)
  em_getenv : World -> string -> option string;
  (* int(s) for a str *)
  em_int : string -> result Z;
  (* ssl.create_default_context() *)
  em_ssl_context : World -> result Ctx * World;
  (* smtplib.SMTP(server, port) *)
  em_smtp : string -> Z -> World -> result Smtp * World;
  (* smtp.starttls(context=context) *)
  em_starttls : Smtp -> Ctx -> World -> result unit * World;
  (* smtp.login(username, password) *)
  em_login : Smtp -> string -> string -> World -> result unit * World;
  (* MIMEMultipart() with From, To and Subject set and MIMEText(content,
     "plain") attached *)
  em_message : string -> json -> json -> json -> result Msg;
  (* smtp.send_message(msg) *)
  em_send_message : Smtp -> Msg -> World -> result unit * World
}.
Arguments em_getenv {World Smtp Ctx Msg}.
Arguments em_int {World Smtp Ctx Msg}.
Arguments em_ssl_context {World Smtp Ctx Msg}.
Arguments em_smtp {World Smtp Ctx Msg}.
Arguments em_starttls {World Smtp Ctx Msg}.
Arguments em_login {World Smtp Ctx Msg}.
Arguments em_message {World Smtp Ctx Msg}.
Arguments em_send_message {World Smtp Ctx Msg}.

Module Email.
Section Email.
Context {World Smtp Ctx Msg : Type} (api : EmailApi World Smtp Ctx Msg).

Record t := mk {
  email_server : string;
  email_port : Z;
  username : string;
  password : string;
  smtp : option Smtp
}.

Definition with_smtp (self : t) (conn : Smtp) : t :=
  {| email_server := email_server self; email_port := email_port self;
     username := username self; password := password self; smtp := Some conn |}.

(** [EmailHandler()]: the port is read before the credentials are
    checked. *)
Definition init (w : World) : result t * World :=
  let server :=
    match em_getenv api w "EMAIL_SERVER" with
    | Some s => s
    | None => "imap.gmail.com"
    end in
  let port_text :=
    match em_getenv api w "EMAIL_PORT" with
    | Some s => s
    | None => "993"
    end in
  match em_int api port_text with
  | Raise e => (Raise e, w)
  | Ok port =>
      match em_getenv api w "EMAIL_USERNAME", em_getenv api w "EMAIL_PASSWORD" with
      | Some (String a u), Some (String b p) =>
          (Ok {| email_server := server; email_port := port;
                 username := String a u; password := String b p; smtp := None |}, w)
      | _, _ => (Raise (ValueError "Email credentials not properly configured"), w)
      end
  end.

(** [_connect_smtp()]: whatever is raised is raised again; the connection
    is stored as soon as it is open, before TLS and login. *)
Definition _connect_smtp (self : t) (w : World) : result unit * t * World :=
  match em_ssl_context api w with
  | (Raise e, w1) => (Raise e, self, w1)
  | (Ok context, w1) =>
      match em_smtp api (email_server self) 587 w1 with
      | (Raise e, w2) => (Raise e, self, w2)
      | (Ok conn, w2) =>
          let self' := with_smtp self conn in
          match em_starttls api conn context w2 with
          | (Raise e, w3) => (Raise e, self', w3)
          | (Ok _, w3) =>
              match em_login api conn (username self) (password self) w3 with
              | (Raise e, w4) => (Raise e, self', w4)
              | (Ok _, w4) => (Ok tt, self', w4)
              end
          end
      end
  end.

(** [AttributeError] for a method looked up on [None]. *)
Definition no_attribute (name : string) : exn :=
  Exn "AttributeError" true
    (String.append "'NoneType' object has no attribute '" (String.append name "'"))
    None.

(** The second half of [_send_email]: the message is built, then sent over
    the stored connection. *)
Definition send_over (self : t) (to_email subject content : json) (w : World)
  : result unit * t * World :=
  match em_message api (username self) to_email subject content with
  | Raise e => (Raise e, self, w)
  | Ok msg =>
      match smtp self with
      | None => (Raise (no_attribute "send_message"), self, w)
      | Some conn =>
          match em_send_message api conn msg w with
          | (Ok _, w') => (Ok tt, self, w')
          | (Raise e, w') => (Raise e, self, w')
          end
      end
  end.

(** [_send_email(to_email, subject, content)]: it connects only when no
    connection is stored; whatever is raised is raised again. *)
Definition _send_email (self : t) (to_email subject content : json) (w : World)
  : result unit * t * World :=
  match smtp self with
  | Some _ => send_over self to_email subject content w
  | None =>
      match _connect_smtp self w with
      | (Raise e, self', w') => (Raise e, self', w')
      | (Ok _, self', w') => send_over self' to_email subject content w'
      end
  end.

Definition PREFIX : string := "Error handling email command: ".

(** [handle_command(command)], with the handler after it. *)
Definition handle_command (self : t) (command : Command.t) (w : World)
  : result (gmap string string) * t * World :=
  let to_email := dict_get (Command.payload command) (text_of_string "to") in
  let subject :=
    dict_get_default (Command.payload command) (text_of_string "subject")
      (JStr (text_of_string "Shadow Nexus Response")) in
  let content :=
    dict_get_default (Command.payload command) (text_of_string "content") NO_CONTENT in
  let invalid :=
    (Ok (reply "error" "Invalid email address or missing content"), self, w) in
  match to_email with
  | Some addr =>
      if truthy addr then
        match _send_email self addr subject content w with
        | (Ok _, self', w') => (Ok (reply "success" "Email sent"), self', w')
        | (Raise e, self', w') =>
            let '(r, w'') := caught PREFIX e w' in (r, self', w'')
        end
      else invalid
  | None => invalid
  end.

(** The class as the router holds it; the router drops the instance after
    the call. *)
Definition handler_class : CommandRouter.HandlerClass World (gmap string string) :=
  {| CommandRouter.instantiate := fun w =>
       match init w with
       | (Ok self, w') =>
           (Ok {| CommandRouter.handle_command := fun command w0 =>
                    let '(r, _, w1) := handle_command self command w0 in (r, w1) |},
            w')
       | (Raise e, w') => (Raise e, w')
       end |}.

End Email.
End Email.

End Handlers.

(** * Sample values and the vocabulary of the statements *)

Section VerifierSamples.
Import Bytes PyFloat SignatureVerifier.

(** The verifier that [CoreControl] builds when [SIGNATURE_KEY] is not
    set: the default key and the default maximum age of 300 seconds. *)
Definition default_verifier : SignatureVerifier.t :=
  {| _secret_key := utf8_encode "default-key-change-in-production";
     _max_age := 300000000 |}.

(** A clock reading of November 2023 and one of November 2026. *)
Definition now_2023 : datetime := 1700000100000000.
Definition now_2026 : datetime := 1793707200000000.

End VerifierSamples.

Section RouterSamples.
Import Exc CommandRouter.

(** Sample handlers, acting on a world that records which handler ran and
    answering with text: one that answers with its name, one that raises. *)
Definition answering (name : string) : HandlerClass (list string) string :=
  {| instantiate := fun w =>
       (Ok {| handle_command := fun _ w' => (Ok name, w' ++ [name]) |}, w) |}.

Definition failing (e : exn) : HandlerClass (list string) string :=
  {| instantiate := fun w =>
       (Ok {| handle_command := fun _ w' => (Raise e, w' ++ ["failing"]) |}, w) |}.

Definition command_for (target : string) : Command.t :=
  {| Command.command_type := "message";
     Command.target_system := target;
     Command.payload := [];
     Command.signature := None;
     Command.timestamp := None |}.

(** A router with one handler, registered for discord. *)
Definition discord_router : CommandRouter.t (list string) string :=
  fst (register_handler (fst init) "discord" (answering "discord")).

(** [SystemExit(1)], which does not derive from [Exception]. *)
Definition system_exit : exn := Exn "SystemExit" false "1" None.

(** [ConnectionError('timed out')], which does. *)
Definition connection_error : exn := Exn "ConnectionError" true "timed out" None.

(** A router whose handler for email raises [ConnectionError]. *)
Definition email_down_router : CommandRouter.t (list string) string :=
  fst (register_handler discord_router "email" (failing connection_error)).

(** A router whose handler for email raises [SystemExit]. *)
Definition email_exit_router : CommandRouter.t (list string) string :=
  fst (register_handler discord_router "email" (failing system_exit)).

End RouterSamples.

Section ProcessorVocabulary.
Import Bytes Re Json MessageProcessor.

(** Text between double quotes. *)
Definition quoted (s : string) : string :=
  String (ascii_of_nat 34) (String.append s (String (ascii_of_nat 34) EmptyString)).

(** The message [#ping@system{"a":1}]. *)
Definition ping_message : string :=
  String.append "#ping@system{" (String.append (quoted "a") ":1}").

(** The message [#bad@system{not-json}]. *)
Definition bad_message : string := "#bad@system{not-json}".

(** A message whose payload is a bare number. *)
Definition number_message : string := "#count@system{42}".

(** Every character of [s] is in the class [cls]. *)
Fixpoint all_chars (cls : ascii -> bool) (s : string) : bool :=
  match s with
  | EmptyString => true
  | String c s' => cls c && all_chars cls s'
  end.

(** [s] does not start with a character of [cls]. *)
Definition head_outside (cls : ascii -> bool) (s : string) : bool :=
  match s with
  | EmptyString => true
  | String c _ => negb (cls c)
  end.

(** [s] holds no closing brace; no hash sign. *)
Definition no_close (s : string) : bool := all_chars not_close_brace s.
Definition not_hash (c : ascii) : bool := negb (Ascii.eqb "#" c).
Definition no_hash (s : string) : bool := all_chars not_hash s.


(** [suffix rest s]: [rest] is what remains of [s] after some characters. *)
Inductive suffix : string -> string -> Prop :=
| suffix_refl s : suffix s s
| suffix_cons c rest s : suffix rest s -> suffix rest (String c s).

End ProcessorVocabulary.

Section OutcomeVocabulary.
Context {A S W L : Type}.

(** The parts of what a call returns with its state, the world and the
    log: [route_command], [process_input]. *)
Definition result_of (r : A * S * W * L) : A := fst (fst (fst r)).
Definition state_of (r : A * S * W * L) : S := snd (fst (fst r)).
Definition world_of (r : A * S * W * L) : W := snd (fst r).
Definition log_of (r : A * S * W * L) : L := snd r.

End OutcomeVocabulary.

Section RouterVocabulary.
Import Exc CommandRouter.
Context {Response : Type}.

(** What [route_command] makes of the outcome of the [try] block. *)
Definition wrapped (target : string) (r : result Response) : result Response :=
  match r with
  | Ok response => Ok response
  | Raise e =>
      if exn_is_Exception e then
        Raise (RuntimeError_from
                 (String.append "Error handling command for "
                    (String.append target (String.append ": " (exn_str e)))) e)
      else Raise e
  end.

(** The record of [_initialize_handlers]. *)
Definition initialized_record : LogRecord := (INFO, "Command handlers initialized").

(** No [Exception] comes out: a value, or what derives from
    [BaseException] alone. *)
Definition no_exception (r : result Response) : Prop :=
  match r with
  | Ok _ => True
  | Raise e => exn_is_Exception e = false
  end.

End RouterVocabulary.

Section ProcessorVocabulary2.
Import Bytes PyFloat Re Json MessageProcessor.

(** The text [pre#ty@sys{p}post]: a command inside a message. *)
Definition with_command (pre ty sys p post : string) : string :=
  String.append pre
    (String "#" (String.append ty
       (String "@" (String.append sys
          (String "{" (String.append p (String "}" post))))))).

(** A non-empty text of the class [cls]. *)
Definition token (cls : ascii -> bool) (s : string) : bool :=
  match s with
  | EmptyString => false
  | String _ _ => all_chars cls s
  end.

(** A run of [process_message] over messages, each with its two clock
    readings: the commands returned, and the processor after the last. *)
Fixpoint process_all (pydantic : Pydantic.version) (self : MessageProcessor.t)
    (inputs : list (string * datetime * datetime))
  : list (option Command.t) * MessageProcessor.t :=
  match inputs with
  | [] => ([], self)
  | (message, now0, now1) :: rest =>
      let '((command, _), self') :=
        process_message pydantic self message now0 now1 in
      let '(commands, self'') := process_all pydantic self' rest in
      (command :: commands, self'')
  end.

(** A command as [extract_command] builds one. *)
Definition command_of (ty sys : string) (payload : list (text * json)) (ts : float)
  : Command.t :=
  {| Command.command_type := ty; Command.target_system := sys;
     Command.payload := payload; Command.signature := None;
     Command.timestamp := Some ts |}.

(** A number, a boolean, [null] or a non-empty text: a value that is
    neither a list nor a dict nor empty. *)
Definition atom (v : json) : bool :=
  match v with
  | JNull => true
  | JBool _ => true
  | JInt _ => true
  | JFloat _ => true
  | JStr (_ :: _) => true
  | _ => false
  end.


(** The message [#set@system{[["a",1]]}], whose payload is a list of one
    pair. *)
Definition pairs_message : string :=
  String.append "#set@system{[[" (String.append (quoted "a") ",1]]}").

(** The metadata of a message in which no command was found. *)
Definition plain_metadata (message : string) (now : datetime) : gmap string meta :=
  <["has_command" := MBool false]>
    (<["length" := MInt (Z.of_nat (String.length message))]>
       (<["timestamp" := MFloat (PyFloat.timestamp now)]> ∅)).

End ProcessorVocabulary2.

Section HandlerSamples.
Import Exc Json PyValue Handlers.

(** The payload names no recipient under [key], or one whose truth value
    is false. *)
Definition absent (payload : list (text * json)) (key : string) : bool :=
  match dict_get payload (text_of_string key) with
  | Some v => negb (truthy v)
  | None => true
  end.

(** A command for [target] with one entry in its payload. *)
Definition command_with (target key : string) (v : json) : Command.t :=
  {| Command.command_type := "message";
     Command.target_system := target;
     Command.payload := [(text_of_string key, v)];
     Command.signature := None;
     Command.timestamp := None |}.

(** Sample platforms.  The world is the list of the calls made so far, the
    environment a map that does not change; every call succeeds but the one
    named, which gives [outcome]. *)
Definition call (name failing : string) (outcome : result unit) (w : list string)
  : result unit * list string :=
  (if String.eqb name failing then outcome else Ok tt, w ++ [name]).

Definition sample_telegram (env : gmap string string) (failing : string)
    (outcome : result unit) : TelegramApi (list string) unit :=
  {| tg_getenv := fun _ name => env !! name;
     tg_build := fun _ w => call "build" failing outcome w;
     tg_send_message := fun _ _ _ w => call "send_message" failing outcome w |}.

Definition sample_discord (env : gmap string string) (failing : string)
    (outcome : result unit) : DiscordApi (list string) unit unit :=
  {| dc_getenv := fun _ name => env !! name;
     dc_bot := fun w => call "Bot" failing outcome w;
     dc_events := fun _ w => call "event" failing outcome w;
     dc_int := fun v => match v with JInt n => Ok n | _ => Raise (ValueError "int") end;
     dc_fetch_channel := fun _ _ w => call "fetch_channel" failing outcome w;
     dc_channel_bool := fun _ => true;
     dc_send := fun _ _ w => call "send" failing outcome w |}.

Definition sample_email (env : gmap string string) (failing : string)
    (outcome : result unit) : EmailApi (list string) unit unit unit :=
  {| em_getenv := fun _ name => env !! name;
     em_int := fun s => if String.eqb s "993" then Ok 993 else Raise (ValueError "int");
     em_ssl_context := fun w => call "create_default_context" failing outcome w;
     em_smtp := fun _ _ w => call "SMTP" failing outcome w;
     em_starttls := fun _ _ w => call "starttls" failing outcome w;
     em_login := fun _ _ _ w => call "login" failing outcome w;
     em_message := fun _ _ _ _ => Ok tt;
     em_send_message := fun _ _ w => call "send_message" failing outcome w |}.

(** An environment with every token and credential set. *)
Definition full_env : gmap string string :=
  <["TELEGRAM_BOT_TOKEN" := "t0"]>
    (<["DISCORD_BOT_TOKEN" := "d0"]>
       (<["EMAIL_USERNAME" := "nexus"]> (<["EMAIL_PASSWORD" := "p0"]> ∅))).

(** An [EmailHandler] just built from [full_env]. *)
Definition sample_mailer : Email.t (Smtp := unit) :=
  {| Email.email_server := "imap.gmail.com"; Email.email_port := 993;
     Email.username := "nexus"; Email.password := "p0"; Email.smtp := None |}.

End HandlerSamples.

(** * Properties *)

(** ** The signature verifier *)

Section VerifierProperties.
Import Bytes PyFloat SignatureVerifier.

Lemma default_verifier_init :
  init "default-key-change-in-production" 300 = Some default_verifier.
Proof. reflexivity. Qed.

Lemma compare_digest_refl (b : bytes) : compare_digest b b = true.
Proof. unfold compare_digest. apply bool_decide_eq_true_2. reflexivity. Qed.

Lemma compare_digest_true (a b : bytes) : compare_digest a b = true <-> a = b.
Proof. unfold compare_digest. apply bool_decide_eq_true. Qed.

(** With a timestamp given, [generate_signature] does not read the clock. *)
Lemma generate_signature_timestamp self message ts now now' :
  generate_signature self message (Some ts) now =
  generate_signature self message (Some ts) now'.
Proof. reflexivity. Qed.

(** Without one, it signs for the float of the clock reading. *)
Lemma generate_signature_now self message now :
  generate_signature self message None now =
  generate_signature self message (Some (PyFloat.timestamp now)) now.
Proof. reflexivity. Qed.

(** When the age check lets a call through, the verdict is the comparison
    with the expected signature. *)
Lemma verify_signature_passed self message signature timestamp now :
  age_check self timestamp now = Some false ->
  verify_signature self message signature timestamp now =
  compare_digest (utf8_encode signature)
    (utf8_encode (generate_signature self message timestamp now)).
Proof. intros H. unfold verify_signature. rewrite H. reflexivity. Qed.

Lemma age_check_fresh self ts now d :
  fromtimestamp ts = Some d -> now - d <= _max_age self ->
  age_check self (Some ts) now = Some false.
Proof.
  intros Hd Hage. unfold age_check. rewrite Hd.
  destruct (float_bool ts); [| reflexivity].
  f_equal. apply Z.ltb_ge. exact Hage.
Qed.

Lemma age_check_expired self ts now d :
  float_bool ts = true -> fromtimestamp ts = Some d ->
  _max_age self < now - d ->
  age_check self (Some ts) now = Some true.
Proof.
  intros Hb Hd Hage. unfold age_check. rewrite Hb, Hd.
  f_equal. apply Z.ltb_lt. exact Hage.
Qed.

Lemma age_check_zero self ts now :
  float_bool ts = false -> age_check self (Some ts) now = Some false.
Proof. intros Hb. unfold age_check. rewrite Hb. reflexivity. Qed.

Lemma utf8_decode_head_char c r : utf8_decode_head (utf8_char c ++ r) = Some (c, r).
Proof. destruct c as [[] [] [] [] [] [] [] []]; reflexivity. Qed.

Lemma utf8_encode_inj a b : utf8_encode a = utf8_encode b -> a = b.
Proof.
  revert b. induction a as [| c a IH]; intros [| c' b] H; simpl in H.
  - reflexivity.
  - apply (f_equal utf8_decode_head) in H.
    rewrite utf8_decode_head_char in H. discriminate.
  - apply (f_equal utf8_decode_head) in H.
    rewrite utf8_decode_head_char in H. discriminate.
  - apply (f_equal utf8_decode_head) in H.
    rewrite !utf8_decode_head_char in H.
    injection H as Hc Hr. subst c'. f_equal. apply IH. exact Hr.
Qed.

(** C1, amended.  Sign/verify round trip: for every message [s] and every
    timestamp [t] that [datetime.fromtimestamp] accepts and whose age at the
    time of verification is at most [max_age], verifying the signature
    generated for [(s, t)] together with [t] returns true. *)
Theorem sign_verify_round_trip_within_max_age
    (self : SignatureVerifier.t) (s : string) (t : float)
    (signed_at now d : datetime) :
  fromtimestamp t = Some d ->
  now - d <= _max_age self ->
  verify_signature self s (generate_signature self s (Some t) signed_at) (Some t) now
  = true.
Proof.
  intros Hd Hage.
  rewrite (verify_signature_passed _ _ _ _ _ (age_check_fresh _ _ _ _ Hd Hage)).
  rewrite (generate_signature_timestamp self s t signed_at now).
  apply compare_digest_refl.
Qed.

Lemma sign_verify_round_trip_witness :
  fromtimestamp 1700000000%float = Some 1700000000000000 /\
  now_2023 - 1700000000000000 <= _max_age default_verifier /\
  verify_signature default_verifier "status"
    (generate_signature default_verifier "status" (Some 1700000000%float) 0)
    (Some 1700000000%float) now_2023 = true.
Proof.
  assert (Hd : fromtimestamp 1700000000%float = Some 1700000000000000)
    by (vm_compute; reflexivity).
  assert (Hage : now_2023 - 1700000000000000 <= _max_age default_verifier)
    by (vm_compute; discriminate).
  split; [exact Hd | split; [exact Hage |]].
  exact (sign_verify_round_trip_within_max_age default_verifier "status"
           1700000000%float 0 now_2023 1700000000000000 Hd Hage).
Defined.

(** C1 as stated fails: a signature generated for the timestamp 1.0 and
    verified with that timestamp in 2023 is older than 300 seconds, and
    [verify_signature] returns false. *)
Lemma sign_verify_round_trip_expired :
  verify_signature default_verifier "status"
    (generate_signature default_verifier "status" (Some 1%float) 0)
    (Some 1%float) now_2023 = false.
Proof. vm_compute. reflexivity. Qed.

(** C2, amended.  A call of [verify_signature] with no timestamp makes no
    age check and signs the message anew for the clock reading of the call:
    it returns true exactly when the given signature is that one, and false
    for every other signature. *)
Theorem verify_without_timestamp
    (self : SignatureVerifier.t) (message signature : string) (now : datetime) :
  verify_signature self message signature None now = true <->
  signature = generate_signature self message None now.
Proof.
  unfold verify_signature. simpl.
  rewrite compare_digest_true. split.
  - apply utf8_encode_inj.
  - intros ->. reflexivity.
Qed.

(** C2 as stated fails: with no timestamp, the signature generated at the
    clock reading of the verification is accepted. *)
Lemma verify_without_timestamp_accepts :
  verify_signature default_verifier "status"
    (generate_signature default_verifier "status" None now_2026) None now_2026
  = true.
Proof. vm_compute. reflexivity. Qed.

(** C3, the code at the failing input.  A timestamp whose truth value is
    false (0.0 or -0.0) skips the age check: the signature generated for it
    verifies at every clock reading, however long after the epoch. *)
Theorem verify_zero_timestamp_never_expires
    (self : SignatureVerifier.t) (s : string) (t : float)
    (signed_at now : datetime) :
  float_bool t = false ->
  verify_signature self s (generate_signature self s (Some t) signed_at) (Some t) now
  = true.
Proof.
  intros Hb.
  rewrite (verify_signature_passed _ _ _ _ _ (age_check_zero _ _ _ Hb)).
  rewrite (generate_signature_timestamp self s t signed_at now).
  apply compare_digest_refl.
Qed.

Lemma verify_zero_timestamp_witness :
  float_bool 0%float = false /\
  fromtimestamp 0%float = Some 0 /\
  _max_age default_verifier < now_2026 - 0 /\
  verify_signature default_verifier "status"
    (generate_signature default_verifier "status" (Some 0%float) 0)
    (Some 0%float) now_2026 = true.
Proof.
  assert (Hb : float_bool 0%float = false) by (vm_compute; reflexivity).
  split; [exact Hb |].
  split; [vm_compute; reflexivity |].
  split; [vm_compute; reflexivity |].
  exact (verify_zero_timestamp_never_expires default_verifier "status" 0%float
           0 now_2026 Hb).
Defined.

(** Expiry where the age check runs: for a timestamp whose truth value is
    true and whose age exceeds [max_age], every signature is rejected. *)
Theorem verify_rejects_expired
    (self : SignatureVerifier.t) (s signature : string) (t : float)
    (now d : datetime) :
  float_bool t = true ->
  fromtimestamp t = Some d ->
  _max_age self < now - d ->
  verify_signature self s signature (Some t) now = false.
Proof.
  intros Hb Hd Hage. unfold verify_signature.
  rewrite (age_check_expired _ _ _ _ Hb Hd Hage). reflexivity.
Qed.

Lemma verify_rejects_expired_witness :
  float_bool 1%float = true /\
  fromtimestamp 1%float = Some 1000000 /\
  _max_age default_verifier < now_2023 - 1000000 /\
  verify_signature default_verifier "status"
    (generate_signature default_verifier "status" (Some 1%float) 0)
    (Some 1%float) now_2023 = false.
Proof.
  assert (Hb : float_bool 1%float = true) by (vm_compute; reflexivity).
  assert (Hd : fromtimestamp 1%float = Some 1000000) by (vm_compute; reflexivity).
  assert (Hage : _max_age default_verifier < now_2023 - 1000000)
    by (vm_compute; reflexivity).
  split; [exact Hb | split; [exact Hd | split; [exact Hage |]]].
  exact (verify_rejects_expired default_verifier "status" _ 1%float now_2023
           1000000 Hb Hd Hage).
Defined.

(** Tampering: with a timestamp given, a signature other than the one
    generated for the message and that timestamp is rejected, whatever the
    clock reads. *)
Theorem verify_rejects_other_signature
    (self : SignatureVerifier.t) (s signature : string) (t : float)
    (signed_at now : datetime) :
  signature <> generate_signature self s (Some t) signed_at ->
  verify_signature self s signature (Some t) now = false.
Proof.
  intros Hne. unfold verify_signature.
  destruct (age_check self (Some t) now) as [[|] |]; try reflexivity.
  destruct (compare_digest _ _) eqn:E; [| reflexivity].
  apply compare_digest_true, utf8_encode_inj in E.
  exfalso. apply Hne. rewrite E. apply generate_signature_timestamp.
Qed.

Lemma verify_rejects_other_signature_witness :
  "c2lnbmVk" <> generate_signature default_verifier "status" (Some 1700000000%float) 0 /\
  verify_signature default_verifier "status" "c2lnbmVk" (Some 1700000000%float) now_2023
  = false.
Proof.
  assert (Hne : "c2lnbmVk"
                <> generate_signature default_verifier "status" (Some 1700000000%float) 0)
    by (vm_compute; discriminate).
  split; [exact Hne |].
  exact (verify_rejects_other_signature default_verifier "status" "c2lnbmVk"
           1700000000%float 0 now_2023 Hne).
Defined.

End VerifierProperties.

(** ** The command router *)

Section RouterProperties.
Import Exc CommandRouter.

Lemma exn_cause_neq (c : string) (b : bool) (m : string) (e : exn) :
  Exn c b m (Some e) <> e.
Proof.
  intros H. apply (f_equal exn_depth) in H. simpl in H. lia.
Qed.

Context {World Response : Type}.
Implicit Types (self : CommandRouter.t World Response) (command : Command.t) (w : World).

(** What [route_command] does once the lookup has found a handler class. *)
Lemma route_command_found self command w handler_class :
  _handlers self !! Command.target_system command = Some handler_class ->
  exists self' log,
    _handlers self' = _handlers self /\
    route_command self command w =
      match invoke handler_class command w with
      | (Ok response, w') =>
          (Ok response, self', w',
           log ++ [(INFO, String.append "Successfully routed command to "
                            (Command.target_system command))])
      | (Raise e, w') =>
          if exn_is_Exception e then
            let error_msg :=
              String.append "Error handling command for "
                (String.append (Command.target_system command)
                   (String.append ": " (exn_str e))) in
            (Raise (RuntimeError_from error_msg e), self', w',
             log ++ [(ERROR, error_msg)])
          else (Raise e, self', w', log)
      end.
Proof.
  intros Hget.
  exists (fst (if _initialized self then (self, []) else _initialize_handlers self)),
         (snd (if _initialized self then (self, []) else _initialize_handlers self)).
  unfold route_command.
  destruct (_initialized self); simpl; rewrite Hget; (split; [reflexivity |]);
    destruct (invoke handler_class command w) as [[response | e] w'];
    try reflexivity; destruct (exn_is_Exception e); reflexivity.
Qed.

(** C4.  Unregistered target: when the registry has no entry for the
    target system of a command, [route_command] raises the routing error (a
    [ValueError] in the source) whose message ends with the name of that
    system, and no handler runs: the world and the registry are as before. *)
Theorem route_unregistered_target self command w :
  _handlers self !! Command.target_system command = None ->
  exists self' log,
    route_command self command w =
      (Raise (ValueError (String.append "No handler found for system: "
                            (Command.target_system command))),
       self', w, log) /\
    _handlers self' = _handlers self.
Proof.
  intros Hget. unfold route_command.
  destruct (_initialized self); simpl; rewrite Hget;
    eexists _, _; split; reflexivity.
Qed.

(** C5, amended.  Handler-failure wrapping: when the handler of a
    registered class raises an exception that derives from [Exception] during
    [handle_command], [route_command] raises the handler error (a
    [RuntimeError] in the source): an exception of its own, whatever the class
    of the handler's, whose text carries the target system name and the text
    of the original, which it keeps as its cause. *)
Theorem route_wraps_handler_exception
    self command w handler_class handler w1 e w2 :
  _handlers self !! Command.target_system command = Some handler_class ->
  instantiate handler_class w = (Ok handler, w1) ->
  handle_command handler command w1 = (Raise e, w2) ->
  exn_is_Exception e = true ->
  exists self' log raised,
    route_command self command w = (Raise raised, self', w2, log) /\
    exn_class raised = "RuntimeError" /\
    exn_str raised =
      String.append "Error handling command for "
        (String.append (Command.target_system command)
           (String.append ": " (exn_str e))) /\
    exn_cause raised = Some e /\
    raised <> e.
Proof.
  intros Hget Hnew Hrun Hexc.
  destruct (route_command_found self command w handler_class Hget)
    as (self' & log & _ & Hroute).
  unfold invoke in Hroute. rewrite Hnew, Hrun, Hexc in Hroute.
  eexists _, _, _. split; [exact Hroute |].
  repeat split. apply exn_cause_neq.
Qed.

(** C8.  Last writer wins: after two registrations for the same target
    system, the second has logged a warning, the router is the one a single
    registration of the second class gives, and routing a command for that
    system instantiates the second class and returns what its handler
    returns. *)
Theorem reregistration_last_writer_wins
    self first second command w handler w1 response w2 :
  instantiate second w = (Ok handler, w1) ->
  handle_command handler command w1 = (Ok response, w2) ->
  let x := Command.target_system command in
  let r1 := fst (register_handler self x first) in
  let r2 := fst (register_handler r1 x second) in
  let log2 := snd (register_handler r1 x second) in
  In (WARNING, String.append "Overwriting existing handler for " x) log2 /\
  r2 = fst (register_handler self x second) /\
  exists self' log, route_command r2 command w = (Ok response, self', w2, log).
Proof.
  intros Hnew Hrun x r1 r2 log2. split; [| split].
  - subst log2 r1. unfold register_handler. simpl.
    rewrite lookup_insert_eq. simpl. left. reflexivity.
  - subst r2 r1. unfold register_handler. simpl.
    rewrite insert_insert_eq. reflexivity.
  - assert (Hget : _handlers r2 !! Command.target_system command = Some second).
    { subst r2 r1. unfold register_handler. simpl. apply lookup_insert_eq. }
    destruct (route_command_found r2 command w second Hget)
      as (self' & log & _ & Hroute).
    unfold invoke in Hroute. rewrite Hnew, Hrun in Hroute.
    eexists _, _. exact Hroute.
Qed.

End RouterProperties.

Lemma route_unregistered_target_witness :
  CommandRouter._handlers discord_router !! Command.target_system (command_for "email")
    = None /\
  exists self' log,
    CommandRouter.route_command discord_router (command_for "email") [] =
      (Exc.Raise (Exc.ValueError "No handler found for system: email"), self', [], log) /\
    CommandRouter._handlers self' = CommandRouter._handlers discord_router.
Proof.
  assert (Hget : CommandRouter._handlers discord_router
                   !! Command.target_system (command_for "email") = None)
    by (vm_compute; reflexivity).
  split; [exact Hget |].
  exact (route_unregistered_target discord_router (command_for "email") [] Hget).
Defined.

Lemma route_wraps_handler_exception_witness :
  exists self' log raised,
    CommandRouter.route_command email_down_router (command_for "email") [] =
      (Exc.Raise raised, self', ["failing"], log) /\
    Exc.exn_class raised = "RuntimeError" /\
    Exc.exn_str raised = "Error handling command for email: timed out" /\
    Exc.exn_cause raised = Some connection_error /\
    raised <> connection_error.
Proof.
  refine (route_wraps_handler_exception email_down_router (command_for "email") []
            (failing connection_error) _ [] connection_error ["failing"] _ _ _ _).
  - vm_compute. reflexivity.
  - reflexivity.
  - reflexivity.
  - reflexivity.
Defined.

(** C5 as stated fails: an exception of the handler that does not derive
    from [Exception] passes through [route_command] as it is, under its own
    class and without the target system name. *)
Lemma route_passes_system_exit :
  fst (fst (fst (CommandRouter.route_command email_exit_router (command_for "email") [])))
  = Exc.Raise system_exit.
Proof. vm_compute. reflexivity. Qed.

Lemma reregistration_witness :
  let r1 := fst (CommandRouter.register_handler discord_router "discord" (answering "first")) in
  let r2 := fst (CommandRouter.register_handler r1 "discord" (answering "second")) in
  let log2 := snd (CommandRouter.register_handler r1 "discord" (answering "second")) in
  In (Exc.WARNING, "Overwriting existing handler for discord") log2 /\
  r2 = fst (CommandRouter.register_handler discord_router "discord" (answering "second")) /\
  exists self' log,
    CommandRouter.route_command r2 (command_for "discord") [] =
      (Exc.Ok "second", self', ["second"], log).
Proof.
  refine (reregistration_last_writer_wins discord_router (answering "first")
            (answering "second") (command_for "discord") [] _ [] "second" ["second"] _ _).
  - reflexivity.
  - reflexivity.
Defined.

(** ** The message processor *)

Section ProcessorProperties.
Import Bytes PyFloat Re Json MessageProcessor.

Lemma search_ping_message :
  search COMMAND_PATTERN ping_message
  = Some ["ping"; "system"; String.append (quoted "a") ":1"].
Proof. vm_compute. reflexivity. Qed.

Lemma loads_ping_payload :
  loads (String.append (quoted "a") ":1") = JSONDecodeError "Extra data" 3.
Proof. vm_compute. reflexivity. Qed.

Lemma search_bad_message :
  search COMMAND_PATTERN bad_message = Some ["bad"; "system"; "not-json"].
Proof. vm_compute. reflexivity. Qed.

Lemma loads_bad_payload : loads "not-json" = JSONDecodeError "Expecting value" 0.
Proof. vm_compute. reflexivity. Qed.

Lemma search_number_message :
  search COMMAND_PATTERN number_message = Some ["count"; "system"; "42"].
Proof. vm_compute. reflexivity. Qed.

Lemma loads_number_payload : loads "42" = Decoded (JInt 42).
Proof. vm_compute. reflexivity. Qed.


Lemma extract_command_decode_error pydantic self message now ty sys p msg pos :
  search COMMAND_PATTERN message = Some [ty; sys; p] ->
  loads p = JSONDecodeError msg pos ->
  extract_command pydantic self message now = (None, self).
Proof. intros H1 H2. unfold extract_command. rewrite H1, H2. reflexivity. Qed.

Lemma extract_command_refused pydantic self message now ty sys p v :
  search COMMAND_PATTERN message = Some [ty; sys; p] ->
  loads p = Decoded v ->
  Pydantic.dict_field pydantic v = None ->
  extract_command pydantic self message now = (None, self).
Proof.
  intros H1 H2 Hv. unfold extract_command, Command.validate.
  rewrite H1, H2, Hv. reflexivity.
Qed.

(** The one way it gives a command. *)
Lemma extract_command_accepted pydantic self message now ty sys p v items :
  search COMMAND_PATTERN message = Some [ty; sys; p] ->
  loads p = Decoded v ->
  Pydantic.dict_field pydantic v = Some items ->
  let command := command_of ty sys items (PyFloat.timestamp now) in
  extract_command pydantic self message now =
    (Some command,
     {| _command_cache :=
          <[_generate_cache_key command := command]> (_command_cache self) |}).
Proof.
  intros H1 H2 Hv. unfold extract_command, Command.validate.
  rewrite H1, H2, Hv. reflexivity.
Qed.

(** What [extract_command] returns in every case: nothing, with the cache
    as it was, or the command built from the three groups of a match whose
    payload decodes to a value the validation turns into a dict, cached
    under its key. *)
Lemma extract_command_cases pydantic self message now :
  extract_command pydantic self message now = (None, self) \/
  exists ty sys p v items,
    search COMMAND_PATTERN message = Some [ty; sys; p] /\
    loads p = Decoded v /\
    Pydantic.dict_field pydantic v = Some items /\
    let command := command_of ty sys items (PyFloat.timestamp now) in
    extract_command pydantic self message now =
      (Some command,
       {| _command_cache :=
            <[_generate_cache_key command := command]> (_command_cache self) |}).
Proof.
  unfold extract_command, Command.validate.
  destruct (search COMMAND_PATTERN message)
    as [[| ty [| sys [| p [| ? ?]]]] |] eqn:Hs; try (left; reflexivity).
  destruct (loads p) as [v | msg pos] eqn:Hp; [| left; reflexivity].
  destruct (Pydantic.dict_field pydantic v) as [items |] eqn:Hv;
    [| left; reflexivity].
  right. exists ty, sys, p, v, items.
  split; [reflexivity | split; [exact Hp | split; [exact Hv | reflexivity]]].
Qed.

(** Neither version of pydantic makes a dict of a number, a boolean,
    [null] or a non-empty text. *)
Lemma atom_refused pydantic v :
  atom v = true -> Pydantic.dict_field pydantic v = None.
Proof.
  destruct pydantic, v as [| b | n | lit | [| c s] | items | items];
    try discriminate; reflexivity.
Qed.

(** C6, the code at the failing input.  For [#ping@system{"a":1}] the
    pattern captures the text between the braces, which is not a JSON
    document: [extract_command] returns nothing, whichever pydantic is
    installed. *)
Theorem extract_ping_returns_nothing
    (pydantic : Pydantic.version) (self : MessageProcessor.t) (now : datetime) :
  extract_command pydantic self ping_message now = (None, self).
Proof.
  exact (extract_command_decode_error pydantic self ping_message now _ _ _ _ _
           search_ping_message loads_ping_payload).
Qed.

(** C7.  Silent skip on a bad payload: whenever the payload group of the
    match is not valid JSON, [extract_command] returns nothing and leaves
    the cache as it was; so it does for [#bad@system{not-json}]. *)
Theorem extract_skips_bad_payload :
  (forall (pydantic : Pydantic.version) (self : MessageProcessor.t)
          (message : string) (now : datetime) (ty sys p msg : string) (pos : Z),
      search COMMAND_PATTERN message = Some [ty; sys; p] ->
      loads p = JSONDecodeError msg pos ->
      extract_command pydantic self message now = (None, self)) /\
  (forall (pydantic : Pydantic.version) (self : MessageProcessor.t)
          (now : datetime),
      extract_command pydantic self bad_message now = (None, self)).
Proof.
  split.
  - intros pydantic self message now ty sys p msg pos.
    apply extract_command_decode_error.
  - intros pydantic self now.
    exact (extract_command_decode_error pydantic self bad_message now _ _ _ _ _
             search_bad_message loads_bad_payload).
Qed.

Lemma extract_skips_bad_payload_witness :
  search COMMAND_PATTERN bad_message = Some ["bad"; "system"; "not-json"] /\
  loads "not-json" = JSONDecodeError "Expecting value" 0 /\
  extract_command Pydantic.V1 MessageProcessor.init bad_message now_2026
  = (None, MessageProcessor.init).
Proof.
  split; [exact search_bad_message | split; [exact loads_bad_payload |]].
  exact (proj1 extract_skips_bad_payload Pydantic.V1 MessageProcessor.init
           bad_message now_2026 "bad" "system" "not-json" "Expecting value" 0
           search_bad_message loads_bad_payload).
Defined.

(** *** What the pattern can match *)



Lemma string_length_append a b :
  String.length (String.append a b) = (String.length a + String.length b)%nat.
Proof. induction a as [| c a IH]; simpl; [reflexivity | rewrite IH; reflexivity]. Qed.

Lemma substring_append_head a b :
  substring 0 (String.length a) (String.append a b) = a.
Proof. induction a as [| c a IH]; simpl; [destruct b | rewrite IH]; reflexivity. Qed.

Lemma consumed_append run rest : consumed (String.append run rest) rest = run.
Proof.
  unfold consumed. rewrite string_length_append.
  replace (String.length run + String.length rest - String.length rest)%nat
    with (String.length run) by lia.
  apply substring_append_head.
Qed.

(** A successful [cls+] took a non-empty run of the class and went on with
    the rest. *)
Lemma match_plus_some {R} cls s (k : string -> option R) res :
  match_plus cls s k = Some res ->
  exists run rest,
    s = String.append run rest /\ run <> EmptyString /\
    all_chars cls run = true /\ k rest = Some res.
Proof.
  revert res. induction s as [| c s IH]; intros res H; simpl in H; [discriminate |].
  destruct (cls c) eqn:Hc; [| discriminate].
  destruct (match_plus cls s k) as [r' |] eqn:Hm.
  - injection H as <-. destruct (IH r' eq_refl) as (run & rest & -> & _ & Hall & Hk).
    exists (String c run), rest. simpl. rewrite Hc, Hall. repeat split; congruence.
  - exists (String c EmptyString), s. simpl. rewrite Hc. repeat split; congruence.
Qed.


Lemma match_here_chr {R} c s g (k : string -> list string -> option R) res :
  match_here (Chr c) s g k = Some res ->
  exists s', s = String c s' /\ k s' g = Some res.
Proof.
  simpl. destruct s as [| c' s']; [discriminate |].
  destruct (Ascii.eqb c c') eqn:E; [| discriminate].
  apply Ascii.eqb_eq in E. subst c'. eauto.
Qed.

Lemma match_here_chr_seq {R} c r s g (k : string -> list string -> option R) res :
  match_here (Seq (Chr c) r) s g k = Some res ->
  exists s', s = String c s' /\ match_here r s' g k = Some res.
Proof. apply (match_here_chr c s g (fun s' g' => match_here r s' g' k)). Qed.

Lemma match_here_group_plus_seq {R} cls r s g
    (k : string -> list string -> option R) res :
  match_here (Seq (Group (Plus cls)) r) s g k = Some res ->
  exists run rest,
    s = String.append run rest /\ all_chars cls run = true /\
    match_here r rest (g ++ [run]) k = Some res.
Proof.
  simpl. intros H.
  apply match_plus_some in H as (run & rest & -> & _ & Hall & Hk).
  rewrite consumed_append in Hk. eauto.
Qed.

(** The groups of a match of [COMMAND_PATTERN]: three, the last of them
    without a closing brace. *)
Lemma match_command_pattern s g :
  match_here COMMAND_PATTERN s [] (fun _ g' => Some g') = Some g ->
  exists ty sys p, g = [ty; sys; p] /\ no_close p = true.
Proof.
  unfold COMMAND_PATTERN. intros H.
  apply match_here_chr_seq in H as (s1 & _ & H).
  apply match_here_group_plus_seq in H as (ty & s2 & _ & _ & H).
  apply match_here_chr_seq in H as (s3 & _ & H).
  apply match_here_group_plus_seq in H as (sys & s4 & _ & _ & H).
  apply match_here_chr_seq in H as (s5 & _ & H).
  apply match_here_group_plus_seq in H as (p & s6 & _ & Hp & H).
  apply match_here_chr in H as (s7 & _ & H).
  injection H as <-. exists ty, sys, p. split; [reflexivity | exact Hp].
Qed.

Lemma search_groups s g :
  search COMMAND_PATTERN s = Some g ->
  exists ty sys p, g = [ty; sys; p] /\ no_close p = true.
Proof.
  induction s as [| c s IH]; cbn [search]; intros H.
  - destruct (match_here COMMAND_PATTERN EmptyString [] (fun _ g' => Some g'))
      eqn:Hm; [| discriminate].
    injection H as ->. exact (match_command_pattern _ _ Hm).
  - destruct (match_here COMMAND_PATTERN (String c s) [] (fun _ g' => Some g'))
      eqn:Hm.
    + injection H as ->. exact (match_command_pattern _ _ Hm).
    + exact (IH H).
Qed.

(** No match starts at a character other than the hash sign, so a text
    before the first hash sign can be dropped, and a text without one holds
    no match. *)
Lemma match_command_pattern_not_hash {R} c s g
    (k : string -> list string -> option R) :
  not_hash c = true -> match_here COMMAND_PATTERN (String c s) g k = None.
Proof.
  unfold not_hash. intros H%negb_true_iff.
  unfold COMMAND_PATTERN. cbn [match_here]. rewrite H. reflexivity.
Qed.

Lemma search_skip_no_hash pre s :
  no_hash pre = true ->
  search COMMAND_PATTERN (String.append pre s) = search COMMAND_PATTERN s.
Proof.
  induction pre as [| c pre IH]; [reflexivity |].
  intros [Hc Hpre]%andb_true_iff.
  change (String.append (String c pre) s) with (String c (String.append pre s)).
  cbn [search]. rewrite (match_command_pattern_not_hash c _ _ _ Hc).
  exact (IH Hpre).
Qed.






(** *** What the decoder can return *)

Lemma suffix_trans a b c : suffix a b -> suffix b c -> suffix a c.
Proof. intros Hab Hbc. induction Hbc; [exact Hab | constructor; auto]. Qed.

Lemma suffix_all_chars cls rest s :
  suffix rest s -> all_chars cls s = true -> all_chars cls rest = true.
Proof.
  induction 1 as [| c rest s _ IH]; [auto |].
  simpl. intros [_ H]%andb_true_iff. auto.
Qed.

Lemma skip_ws_suffix s pos s' pos' : skip_ws s pos = (s', pos') -> suffix s' s.
Proof.
  revert pos. induction s as [| c s IH]; simpl; intros pos H.
  - injection H as <- _. constructor.
  - destruct (is_ws c).
    + constructor. eapply IH, H.
    + injection H as <- _. constructor.
Qed.

Lemma strip_prefix_suffix p s rest : strip_prefix p s = Some rest -> suffix rest s.
Proof.
  revert s. induction p as [| a p IH]; intros s H; simpl in H.
  - injection H as <-. constructor.
  - destruct s as [| b s]; [discriminate |].
    destruct (Ascii.eqb a b); [| discriminate]. constructor. eapply IH, H.
Qed.

Lemma span_digits_suffix s d r : span_digits s = (d, r) -> suffix r s.
Proof.
  revert d. induction s as [| c s IH]; simpl; intros d H.
  - injection H as _ <-. constructor.
  - destruct (is_digit c).
    + destruct (span_digits s) as [d' r'] eqn:E. injection H as _ <-.
      constructor. eapply IH. reflexivity.
    + injection H as _ <-. constructor.
Qed.

(** Case analysis on the innermost scrutinee of a hypothesis. *)
Ltac destruct_scrutinee H :=
  match type of H with
  | context [match ?x with _ => _ end] =>
      lazymatch x with
      | context [match _ with _ => _ end] => fail
      | _ => destruct x eqn:?
      end
  end.


(** Chains the suffix facts of a goal. *)
Ltac solve_suffix :=
  repeat first
    [ apply suffix_refl
    | assumption
    | match goal with
      | H : suffix ?a ?b |- suffix ?r ?b => apply (suffix_trans r a b); [| exact H]
      end
    | apply suffix_cons ].

(** Turns the equations of the scanner's helpers into suffix facts. *)
Ltac use_suffix_lemmas :=
  repeat match goal with
    | E : (_, _) = (_, _) |- _ => injection E as <- <-
    | E : Some _ = Some _ |- _ => injection E as <-
    | E : skip_ws _ _ = (_, _) |- _ => apply skip_ws_suffix in E
    | E : span_digits _ = (_, _) |- _ => apply span_digits_suffix in E
    | E : strip_prefix _ _ = Some _ |- _ => apply strip_prefix_suffix in E
    end.

Lemma scanstring_suffix fuel s b pos acc t rest p :
  scanstring fuel s b pos acc = Scanned t rest p -> suffix rest s.
Proof.
  revert s pos acc.
  induction fuel as [| fuel IH]; intros s pos acc H; simpl in H; [discriminate |].
  repeat (destruct_scrutinee H; try discriminate);
    try (injection H as ? ? ?; subst);
    try (apply IH in H);
    solve_suffix.
Qed.

Lemma match_number_suffix s pos v rest p :
  match_number s pos = Scanned v rest p -> suffix rest s.
Proof.
  unfold match_number. intros H.
  repeat (destruct_scrutinee H; try discriminate; use_suffix_lemmas);
    injection H as ? ? ?; subst;
    solve_suffix.
Qed.

Lemma match_constant_suffix s pos v rest p :
  match_constant s pos = Some (Scanned v rest p) -> suffix rest s.
Proof.
  unfold match_constant. intros H. cbv beta zeta in H.
  repeat (destruct_scrutinee H; try discriminate);
    injection H as ? ? ?; subst;
    match goal with
    | E : strip_prefix _ _ = Some _ |- _ => apply strip_prefix_suffix in E
    end;
    solve_suffix.
Qed.

Ltac use_scan_lemmas IHs :=
  repeat match goal with
    | E : (_, _) = (_, _) |- _ => injection E as <- <-
    | E : skip_ws _ _ = (_, _) |- _ => apply skip_ws_suffix in E
    | E : scanstring _ _ _ _ _ = Scanned _ _ _ |- _ => apply scanstring_suffix in E
    | E : match_constant _ _ = Some (Scanned _ _ _) |- _ =>
        apply match_constant_suffix in E
    | E : scan_once _ _ _ = Scanned _ _ _ |- _ => apply IHs in E
    end.

(** Every scanner leaves a suffix of its input. *)
Lemma scan_family_suffix fuel :
  (forall s pos v rest p, scan_once fuel s pos = Scanned v rest p -> suffix rest s) /\
  (forall s pos acc v rest p,
      parse_array fuel s pos acc = Scanned v rest p -> suffix rest s) /\
  (forall s pos acc v rest p,
      parse_object fuel s pos acc = Scanned v rest p -> suffix rest s).
Proof.
  induction fuel as [| fuel (IHs & IHa & IHo)].
  - repeat split; intros; discriminate.
  - repeat split.
    + intros s pos v rest p H. cbn [scan_once] in H.
      repeat (destruct_scrutinee H; try discriminate; use_scan_lemmas IHs);
        try (injection H as ? ? ?); subst; use_scan_lemmas IHs;
        try (apply IHa in H); try (apply IHo in H);
        try (apply match_number_suffix in H);
        solve_suffix.
    + intros s pos acc v rest p H. cbn [parse_array] in H.
      repeat (destruct_scrutinee H; try discriminate; use_scan_lemmas IHs);
        try (injection H as ? ? ?); subst;
        try (apply IHa in H);
        solve_suffix.
    + intros s pos acc v rest p H. cbn [parse_object] in H.
      repeat (destruct_scrutinee H; try discriminate; use_scan_lemmas IHs);
        try (injection H as ? ? ?); subst;
        try (apply IHo in H);
        solve_suffix.
Qed.

Lemma suffix_close c r s :
  suffix (String c r) s -> (code c =? 125) = true -> no_close s = false.
Proof.
  intros Hs Hc. destruct (no_close s) eqn:E; [| reflexivity].
  apply (suffix_all_chars _ _ _ Hs) in E. simpl in E.
  unfold not_close_brace in E. rewrite Hc in E. discriminate.
Qed.

Lemma suffix_has_close a s : suffix a s -> no_close a = false -> no_close s = false.
Proof.
  intros Hs Ha. destruct (no_close s) eqn:E; [| reflexivity].
  apply (suffix_all_chars _ _ _ Hs) in E. unfold no_close in Ha. congruence.
Qed.

(** Finds the closing brace of a goal among its suffix facts. *)
Ltac close_by_suffix :=
  match goal with
  | Hs : suffix (String ?c ?r) _, Hc : (code ?c =? 125) = true
    |- no_close ?s = false =>
      apply (suffix_close c r s); [solve_suffix | exact Hc]
  | Hs : no_close ?a = false |- no_close ?s = false =>
      apply (suffix_has_close a s); [solve_suffix | exact Hs]
  end.

Lemma parse_array_value fuel s pos acc v rest p :
  parse_array fuel s pos acc = Scanned v rest p -> exists l, v = JArr l.
Proof.
  revert s pos acc.
  induction fuel as [| fuel IH]; intros s pos acc H; [discriminate |].
  cbn [parse_array] in H.
  repeat (destruct_scrutinee H; try discriminate);
    first [ injection H as ? ? ?; subst; eexists; reflexivity | eapply IH, H ].
Qed.

Lemma match_number_value s pos v rest p items :
  match_number s pos = Scanned v rest p -> v <> JObj items.
Proof.
  unfold match_number. intros H.
  repeat (destruct_scrutinee H; try discriminate);
    injection H as ? ? ?; subst; discriminate.
Qed.

Lemma match_constant_value s pos v rest p items :
  match_constant s pos = Some (Scanned v rest p) -> v <> JObj items.
Proof.
  unfold match_constant. intros H. cbv beta zeta in H.
  repeat (destruct_scrutinee H; try discriminate);
    injection H as ? ? ?; subst; discriminate.
Qed.

(** An object is returned only past a closing brace. *)
Lemma parse_object_close fuel s pos acc v rest p :
  parse_object fuel s pos acc = Scanned v rest p -> no_close s = false.
Proof.
  revert s pos acc.
  induction fuel as [| fuel IH]; intros s pos acc H; [discriminate |].
  pose proof (proj1 (scan_family_suffix fuel)) as IHs.
  cbn [parse_object] in H.
  repeat (destruct_scrutinee H; try discriminate; use_scan_lemmas IHs);
    try (injection H as ? ? ?); subst;
    try (apply IH in H);
    close_by_suffix.
Qed.

Lemma scan_once_object fuel s pos items rest p :
  scan_once fuel s pos = Scanned (JObj items) rest p -> no_close s = false.
Proof.
  destruct fuel as [| fuel]; intros H; [discriminate |].
  pose proof (proj1 (scan_family_suffix fuel)) as IHs.
  cbn [scan_once] in H.
  repeat (destruct_scrutinee H; try discriminate; use_scan_lemmas IHs);
    try (injection H as ? ? ?); subst;
    try (apply parse_object_close in H);
    try (apply parse_array_value in H as [l Hl]; discriminate);
    try (exfalso; eapply match_number_value; [eassumption | reflexivity]);
    try (exfalso; eapply match_constant_value; [eassumption | reflexivity]);
    close_by_suffix.
Qed.

Lemma loads_object p items : loads p = Decoded (JObj items) -> no_close p = false.
Proof.
  unfold loads. intros H.
  repeat (destruct_scrutinee H; try discriminate).
  injection H as ->.
  match goal with
  | E : scan_once _ _ _ = Scanned (JObj _) _ _ |- _ => apply scan_once_object in E
  end.
  use_scan_lemmas I. close_by_suffix.
Qed.

(** The payload group never holds a closing brace and a JSON object always
    does, so no payload decodes to a dict. *)
Lemma payload_never_an_object message ty sys p items :
  search COMMAND_PATTERN message = Some [ty; sys; p] ->
  loads p <> Decoded (JObj items).
Proof.
  intros Hs Hl.
  apply search_groups in Hs as (ty' & sys' & p' & Hg & Hp).
  injection Hg as <- <- <-.
  apply loads_object in Hl. congruence.
Qed.

(** With pydantic 2, which makes a dict of nothing else,
    [extract_command] gives nothing, whatever the message. *)
Lemma extract_command_none self message now :
  extract_command Pydantic.V2 self message now = (None, self).
Proof.
  destruct (extract_command_cases Pydantic.V2 self message now)
    as [H | (ty & sys & p & v & items & Hs & Hl & Hv & _)]; [exact H |].
  exfalso. destruct v; try discriminate Hv.
  exact (payload_never_an_object message ty sys p _ Hs Hl).
Qed.

Lemma loads_empty_list : loads "[]" = Decoded (JArr []).
Proof. vm_compute. reflexivity. Qed.




Lemma process_message_metadata pydantic self message now0 now1 :
  let r := process_message pydantic self message now0 now1 in
  snd (fst r) !! "length" = Some (MInt (Z.of_nat (String.length message))) /\
  snd (fst r) !! "has_command"
    = Some (MBool (match fst (fst r) with Some _ => true | None => false end)).
Proof.
  unfold process_message.
  destruct (extract_command pydantic self message now1) as [[c |] self']; simpl;
    split; by simplify_map_eq.
Qed.

(** C10, amended.  Extraction is total, whichever pydantic is installed:
    [extract_command] returns nothing, leaving the cache as it was, or the
    command built from the groups of a match and from the dict that the
    validation makes of the decoded payload; a payload that decodes to a
    number, a boolean, [null] or a non-empty text, such as the bare number
    of [#count@system{42}], gives nothing; and the metadata of
    [process_message] always holds the length of the message and the
    [has_command] flag, which tells whether a command came back. *)
Theorem extraction_is_total (pydantic : Pydantic.version) :
  (forall (self : MessageProcessor.t) (message : string) (now : datetime),
      extract_command pydantic self message now = (None, self) \/
      exists command,
        fst (extract_command pydantic self message now) = Some command /\
        exists p v,
          search COMMAND_PATTERN message
          = Some [Command.command_type command; Command.target_system command; p] /\
          loads p = Decoded v /\
          Pydantic.dict_field pydantic v = Some (Command.payload command)) /\
  (forall (self : MessageProcessor.t) (message : string) (now : datetime)
          (ty sys p : string) (v : json),
      search COMMAND_PATTERN message = Some [ty; sys; p] ->
      loads p = Decoded v ->
      atom v = true ->
      extract_command pydantic self message now = (None, self)) /\
  (forall (self : MessageProcessor.t) (now : datetime),
      extract_command pydantic self number_message now = (None, self)) /\
  (forall (self : MessageProcessor.t) (message : string) (now0 now1 : datetime),
      let r := process_message pydantic self message now0 now1 in
      snd (fst r) !! "length" = Some (MInt (Z.of_nat (String.length message))) /\
      snd (fst r) !! "has_command"
        = Some (MBool (match fst (fst r) with Some _ => true | None => false end))).
Proof.
  split; [| split; [| split]].
  - intros self message now.
    destruct (extract_command_cases pydantic self message now)
      as [H | (ty & sys & p & v & items & Hs & Hl & Hv & H)];
      [left; exact H | right].
    rewrite H. eexists. split; [reflexivity |]. exists p, v.
    split; [exact Hs | split; [exact Hl | exact Hv]].
  - intros self message now ty sys p v Hs Hl Hv.
    exact (extract_command_refused pydantic self message now ty sys p v Hs Hl
             (atom_refused pydantic v Hv)).
  - intros self now.
    exact (extract_command_refused pydantic self number_message now _ _ _ _
             search_number_message loads_number_payload
             (atom_refused pydantic (JInt 42) eq_refl)).
  - exact (process_message_metadata pydantic).
Qed.

Lemma extraction_is_total_witness :
  search COMMAND_PATTERN number_message = Some ["count"; "system"; "42"] /\
  loads "42" = Decoded (JInt 42) /\
  atom (JInt 42) = true /\
  extract_command Pydantic.V1 MessageProcessor.init number_message now_2026
  = (None, MessageProcessor.init).
Proof.
  split; [exact search_number_message |].
  split; [exact loads_number_payload |].
  split; [reflexivity |].
  exact (proj1 (proj2 (extraction_is_total Pydantic.V1)) MessageProcessor.init
           number_message now_2026 "count" "system" "42" (JInt 42)
           search_number_message loads_number_payload eq_refl).
Defined.

(** C10 as stated fails: the payload of [#set@system{[["a",1]]}] is valid
    JSON and not an object; pydantic 1 turns the list of pairs into the dict
    [{"a": 1}], and a [Command] with that payload comes back. *)
Lemma list_of_pairs_yields_a_command :
  loads (String.append "[[" (String.append (quoted "a") ",1]]"))
  = Decoded (JArr [JArr [JStr (text_of_string "a"); JInt 1]]) /\
  fst (extract_command Pydantic.V1 MessageProcessor.init pairs_message now_2026)
  = Some (command_of "set" "system" [(text_of_string "a", JInt 1)]
            (PyFloat.timestamp now_2026)).
Proof. vm_compute. split; reflexivity. Qed.

(** No message carries a JSON object to [Command]: the payload group stops
    before the first closing brace, so what reaches [json.loads] never
    decodes to an object.  With pydantic 2, which makes a dict of nothing
    else, [extract_command] returns nothing and leaves the cache alone, and
    [process_message] reports [has_command] as false, for every message. *)
Theorem extract_command_never_yields_a_command
    (self : MessageProcessor.t) (message : string) (now0 now1 : datetime) :
  (forall ty sys p items,
      search COMMAND_PATTERN message = Some [ty; sys; p] ->
      loads p <> Decoded (JObj items)) /\
  extract_command Pydantic.V2 self message now1 = (None, self) /\
  fst (fst (process_message Pydantic.V2 self message now0 now1)) = None /\
  snd (fst (process_message Pydantic.V2 self message now0 now1)) !! "has_command"
    = Some (MBool false).
Proof.
  pose proof (extract_command_none self message now1) as H.
  split; [intros ty sys p items; apply payload_never_an_object |].
  split; [exact H |].
  unfold process_message. rewrite H. simpl. split; [reflexivity |].
  by simplify_map_eq.
Qed.

End ProcessorProperties.

(** ** The router: registry, constructors, initialisation *)

Section RouterExtras.
Import Exc CommandRouter.
Context {World Response : Type}.
Implicit Types (self : CommandRouter.t World Response) (command : Command.t)
  (w : World).

Lemma route_command_state self command w :
  _handlers (state_of (route_command self command w)) = _handlers self /\
  _initialized (state_of (route_command self command w)) = true.
Proof.
  unfold route_command, state_of.
  destruct (_initialized self) eqn:Hi; simpl;
    destruct (_handlers self !! Command.target_system command) as [hc |];
    try (destruct (invoke hc command w) as [[response | e] w'];
         try destruct (exn_is_Exception e));
    simpl; auto.
Qed.

Lemma route_constructor_raises self command w handler_class e w1 :
  _handlers self !! Command.target_system command = Some handler_class ->
  instantiate handler_class w = (Raise e, w1) ->
  exn_is_Exception e = true ->
  result_of (route_command self command w) =
    Raise (RuntimeError_from
             (String.append "Error handling command for "
                (String.append (Command.target_system command)
                   (String.append ": " (exn_str e)))) e) /\
  world_of (route_command self command w) = w1.
Proof.
  intros Hget Hnew Hexc.
  destruct (route_command_found self command w handler_class Hget)
    as (s' & log & _ & ->).
  unfold invoke. rewrite Hnew, Hexc. split; reflexivity.
Qed.

(** Routing never changes the registry: whatever the command and
    however the call ends, the router afterwards holds the same handlers
    and is initialised, and it routes every later command to the same
    result and the same world as the router before would. *)
Theorem route_command_keeps_registry self command w :
  _handlers (state_of (route_command self command w)) = _handlers self /\
  _initialized (state_of (route_command self command w)) = true /\
  forall command' w',
    result_of (route_command (state_of (route_command self command w)) command' w')
    = result_of (route_command self command' w') /\
    world_of (route_command (state_of (route_command self command w)) command' w')
    = world_of (route_command self command' w').
Proof.
  destruct (route_command_state self command w) as [Hh Hi].
  split; [exact Hh | split; [exact Hi |]].
  intros command' w'. revert Hh. generalize (state_of (route_command self command w)).
  intros s Hh. unfold route_command, result_of, world_of.
  destruct (_initialized s), (_initialized self); simpl; rewrite Hh;
    destruct (_handlers self !! Command.target_system command') as [hc |];
    try (destruct (invoke hc command' w') as [[response | e] w1];
         try destruct (exn_is_Exception e));
    simpl; auto.
Qed.

(** Register, then route: a command for the system a handler class
    was just registered for is answered by that class, whatever the
    registry held before; the result is the outcome of building the handler
    and calling it, with an [Exception] wrapped in [RuntimeError], and the
    world is the one they leave. *)
Theorem route_after_register self handler command w :
  let x := Command.target_system command in
  let r := route_command (fst (register_handler self x handler)) command w in
  result_of r = wrapped x (fst (invoke handler command w)) /\
  world_of r = snd (invoke handler command w).
Proof.
  intros x r. subst r x.
  assert (Hget : _handlers (fst (register_handler self
                                   (Command.target_system command) handler))
                   !! Command.target_system command = Some handler).
  { unfold register_handler. simpl. apply lookup_insert_eq. }
  destruct (route_command_found _ command w handler Hget) as (s' & log & _ & ->).
  unfold result_of, world_of, wrapped.
  destruct (invoke handler command w) as [[response | e] w']; simpl;
    [auto |]. destruct (exn_is_Exception e); simpl; auto.
Qed.

(** Registering a handler for one system leaves the routing of every
    other system as it was: same result, same world, same log records. *)
Theorem register_leaves_other_systems self x handler command w :
  Command.target_system command <> x ->
  let r := route_command self command w in
  let r' := route_command (fst (register_handler self x handler)) command w in
  result_of r' = result_of r /\
  world_of r' = world_of r /\
  log_of r' = log_of r.
Proof.
  intros Hx r r'. subst r r'.
  unfold route_command, register_handler, result_of, world_of, log_of.
  simpl.
  destruct (_initialized self); simpl;
    rewrite lookup_insert_ne by congruence;
    destruct (_handlers self !! Command.target_system command) as [hc |];
    try (destruct (invoke hc command w) as [[response | e] w'];
         try destruct (exn_is_Exception e));
    simpl; auto.
Qed.

(** An [Exception] raised by the constructor of the handler class is
    wrapped like one raised by [handle_command]: the router raises
    [RuntimeError] with the target and the text of the exception, chained to
    it, and the world is the one the constructor left. *)
Theorem route_wraps_constructor_exception self command w handler_class e w1 :
  _handlers self !! Command.target_system command = Some handler_class ->
  instantiate handler_class w = (Raise e, w1) ->
  exn_is_Exception e = true ->
  let r := route_command self command w in
  result_of r =
    Raise (RuntimeError_from
             (String.append "Error handling command for "
                (String.append (Command.target_system command)
                   (String.append ": " (exn_str e)))) e) /\
  world_of r = w1.
Proof.
  intros Hget Hnew Hexc r. subst r.
  exact (route_constructor_raises self command w handler_class e w1 Hget Hnew Hexc).
Qed.

(** The handlers are initialised once: the first call of
    [route_command] on a router not yet initialised logs the record of
    [_initialize_handlers] first, and no call on the router it leaves logs
    that record again. *)
Theorem initialization_logged_once self command w command' w' :
  let first := route_command self command w in
  let second := route_command (state_of first) command' w' in
  (_initialized self = false ->
   exists rest, log_of first = initialized_record :: rest) /\
  ~ In initialized_record (log_of second).
Proof.
  intros first second. split.
  - intros Hi. subst first. unfold route_command, log_of. rewrite Hi. simpl.
    destruct (_handlers self !! Command.target_system command) as [hc |];
      try (destruct (invoke hc command w) as [[response | e] w1];
           try destruct (exn_is_Exception e));
      simpl; eauto.
  - destruct (route_command_state self command w) as [_ Hi].
    fold first in Hi. subst second.
    unfold route_command at 1. unfold log_of. rewrite Hi. simpl.
    destruct (_handlers (state_of first) !! Command.target_system command')
      as [hc |];
      try (destruct (invoke hc command' w') as [[response | e] w1];
           try destruct (exn_is_Exception e));
      simpl; unfold initialized_record; intros H;
      repeat (destruct H as [H | H];
              [discriminate H
               || (apply (f_equal snd) in H; cbv in H; discriminate H) |]);
      try exact H.
Qed.

End RouterExtras.

Lemma register_leaves_other_systems_witness :
  result_of (CommandRouter.route_command
               (fst (CommandRouter.register_handler discord_router "email"
                       (failing connection_error)))
               (command_for "discord") [])
  = Exc.Ok "discord".
Proof.
  refine (eq_trans
            (proj1 (register_leaves_other_systems discord_router "email"
                      (failing connection_error) (command_for "discord") [] _))
            _).
  - discriminate.
  - reflexivity.
Defined.

Lemma route_wraps_constructor_exception_witness :
  result_of
    (CommandRouter.route_command
       (fst (CommandRouter.register_handler (fst CommandRouter.init) "email"
               {| CommandRouter.instantiate := fun w : list string =>
                    (Exc.Raise (A := CommandRouter.Handler (list string) string) connection_error, w) |}))
       (command_for "email") [])
  = Exc.Raise
      (Exc.RuntimeError_from "Error handling command for email: timed out"
         connection_error).
Proof.
  refine (proj1 (route_wraps_constructor_exception _ (command_for "email") []
                   _ connection_error [] _ _ _)); reflexivity.
Defined.

Lemma initialization_logged_once_witness :
  exists rest,
    log_of (CommandRouter.route_command discord_router (command_for "discord") [])
    = initialized_record :: rest.
Proof.
  apply (proj1 (initialization_logged_once discord_router (command_for "discord") []
                  (command_for "discord") [])).
  reflexivity.
Defined.

(** ** The verifier: timestamps ahead of the clock, timestamps out of range,
    key rotation *)

Section VerifierExtras.
Import Bytes PyFloat SignatureVerifier.

(** Only the past expires.  A signature whose timestamp lies at or
    after the clock reading of the verifier, however far ahead, is accepted
    by a verifier whose maximum age is not negative. *)
Theorem verify_accepts_future_timestamp
    (self : SignatureVerifier.t) (s : string) (t : float)
    (signed_at now d : datetime) :
  0 <= _max_age self ->
  fromtimestamp t = Some d ->
  now <= d ->
  verify_signature self s (generate_signature self s (Some t) signed_at) (Some t) now
  = true.
Proof.
  intros Hmax Hd Hfut.
  rewrite (verify_signature_passed self s _ (Some t) now).
  - rewrite (generate_signature_timestamp self s t signed_at now).
    apply compare_digest_refl.
  - apply (age_check_fresh self t now d Hd). lia.
Qed.

(** A timestamp that [datetime.fromtimestamp] cannot convert (NaN, an
    infinity, a number of seconds beyond year 9999) makes
    [verify_signature] return [False], whatever the signature: the
    exception is swallowed, also for the signature [generate_signature]
    gives for that very timestamp. *)
Theorem verify_rejects_unreadable_timestamp
    (self : SignatureVerifier.t) (s signature : string) (t : float)
    (signed_at now : datetime) :
  float_bool t = true ->
  fromtimestamp t = None ->
  verify_signature self s signature (Some t) now = false /\
  verify_signature self s (generate_signature self s (Some t) signed_at) (Some t) now
  = false.
Proof.
  intros Hb Hd. unfold verify_signature, age_check. rewrite Hb, Hd.
  split; reflexivity.
Qed.

(** Rotating the key is rebuilding the verifier: after
    [update_secret_key] a verifier equals the one its constructor gives for
    the new key and the same maximum age. *)
Theorem update_secret_key_as_init
    (self : SignatureVerifier.t) (old_key new_key : string) (max_age : Z) :
  init old_key max_age = Some self ->
  init new_key max_age = Some (update_secret_key self new_key).
Proof.
  unfold init, update_secret_key. intros H.
  destruct ((- MAX_DELTA_DAYS <=? max_age / 86400)
            && (max_age / 86400 <=? MAX_DELTA_DAYS));
    [| discriminate].
  injection H as <-. reflexivity.
Qed.

End VerifierExtras.

Lemma verify_accepts_future_timestamp_witness :
  SignatureVerifier.verify_signature default_verifier "ping"
    (SignatureVerifier.generate_signature default_verifier "ping"
       (Some 4000000000%float) now_2023)
    (Some 4000000000%float) now_2026
  = true.
Proof.
  apply (verify_accepts_future_timestamp default_verifier "ping" 4000000000%float
           now_2023 now_2026 4000000000000000).
  - vm_compute. discriminate.
  - vm_compute. reflexivity.
  - vm_compute. discriminate.
Defined.

Lemma verify_rejects_unreadable_timestamp_witness :
  SignatureVerifier.verify_signature default_verifier "ping"
    (SignatureVerifier.generate_signature default_verifier "ping"
       (Some infinity) now_2023)
    (Some infinity) now_2023
  = false.
Proof.
  apply (proj2 (verify_rejects_unreadable_timestamp default_verifier "ping"
                  EmptyString infinity now_2023 now_2023
                  ltac:(vm_compute; reflexivity) ltac:(vm_compute; reflexivity))).
Defined.

Lemma update_secret_key_as_init_witness :
  SignatureVerifier.init "rotated" 300
  = Some (SignatureVerifier.update_secret_key default_verifier "rotated").
Proof.
  apply (update_secret_key_as_init default_verifier
           "default-key-change-in-production" "rotated" 300).
  vm_compute. reflexivity.
Defined.

(** ** The message processor: what the pattern finds, the cache *)

Section ProcessorExtras.
Import Bytes PyFloat Re Json MessageProcessor.

Lemma token_all_chars cls s : token cls s = true -> all_chars cls s = true.
Proof. destruct s; [discriminate | auto]. Qed.

Lemma token_intro cls s : s <> EmptyString -> all_chars cls s = true -> token cls s = true.
Proof. destruct s; [congruence | auto]. Qed.

Lemma match_here_group_plus_token {R} cls r s g
    (k : string -> list string -> option R) res :
  match_here (Seq (Group (Plus cls)) r) s g k = Some res ->
  exists run rest,
    s = String.append run rest /\ token cls run = true /\
    match_here r rest (g ++ [run]) k = Some res.
Proof.
  simpl. intros H.
  apply match_plus_some in H as (run & rest & -> & Hne & Hall & Hk).
  rewrite consumed_append in Hk. exists run, rest.
  split; [reflexivity | split; [apply token_intro; assumption | exact Hk]].
Qed.

Lemma match_command_pattern_text s g :
  match_here COMMAND_PATTERN s [] (fun _ g' => Some g') = Some g ->
  exists ty sys p post,
    g = [ty; sys; p] /\ s = with_command EmptyString ty sys p post /\
    token is_word ty = true /\ token is_word sys = true /\
    token not_close_brace p = true.
Proof.
  unfold COMMAND_PATTERN. intros H.
  apply match_here_chr_seq in H as (s1 & -> & H).
  apply match_here_group_plus_token in H as (ty & s2 & -> & Hty & H).
  apply match_here_chr_seq in H as (s3 & -> & H).
  apply match_here_group_plus_token in H as (sys & s4 & -> & Hsys & H).
  apply match_here_chr_seq in H as (s5 & -> & H).
  apply match_here_group_plus_token in H as (p & s6 & -> & Hp & H).
  apply match_here_chr in H as (s7 & -> & H).
  injection H as <-. exists ty, sys, p, s7. repeat split; assumption.
Qed.

(** What [COMMAND_PATTERN] finds is a command: when the search
    succeeds, the message reads [pre#type@system{payload}post], the three
    groups are the type, the system and the payload, the two names are
    non-empty runs of word characters, and the payload is non-empty and
    holds no closing brace. *)
Theorem search_finds_a_command message g :
  search COMMAND_PATTERN message = Some g ->
  exists pre ty sys p post,
    g = [ty; sys; p] /\ message = with_command pre ty sys p post /\
    token is_word ty = true /\ token is_word sys = true /\
    token not_close_brace p = true.
Proof.
  induction message as [| c s IH]; cbn [search]; intros H.
  - destruct (match_here COMMAND_PATTERN EmptyString [] (fun _ g' => Some g'))
      eqn:Hm; [| discriminate].
    injection H as ->.
    apply match_command_pattern_text in Hm as (ty & sys & p & post & Hm).
    exists EmptyString, ty, sys, p, post. exact Hm.
  - destruct (match_here COMMAND_PATTERN (String c s) [] (fun _ g' => Some g'))
      eqn:Hm.
    + injection H as ->.
      apply match_command_pattern_text in Hm as (ty & sys & p & post & Hm).
      exists EmptyString, ty, sys, p, post. exact Hm.
    + destruct (IH H) as (pre & ty & sys & p & post & Hg & -> & Htok).
      exists (String c pre), ty, sys, p, post. split; [exact Hg |].
      split; [reflexivity | exact Htok].
Qed.

Lemma match_plus_none_outside {R} cls s (k : string -> option R) :
  head_outside cls s = true -> match_plus cls s k = None.
Proof.
  destruct s as [| c s]; simpl; [reflexivity |].
  intros H%negb_true_iff. rewrite H. reflexivity.
Qed.

(** [cls+] over a whole run of the class takes the run when the
    continuation accepts what follows it. *)
Lemma match_plus_run_some {R} cls run rest (k : string -> option R) res :
  token cls run = true ->
  head_outside cls rest = true ->
  k rest = Some res ->
  match_plus cls (String.append run rest) k = Some res.
Proof.
  intros Htok Hout Hk. destruct run as [| c run]; [discriminate |].
  simpl in Htok. revert c Htok.
  induction run as [| c' run IH]; intros c [Hc Hall]%andb_true_iff.
  - change (String.append (String c EmptyString) rest) with (String c rest).
    cbn [match_plus]. rewrite Hc, (match_plus_none_outside cls rest k Hout).
    exact Hk.
  - change (String.append (String c (String c' run)) rest)
      with (String c (String.append (String c' run) rest)).
    cbn [match_plus]. rewrite Hc, (IH c' Hall). reflexivity.
Qed.

Lemma match_command_text {R} ty sys p post g
    (k : string -> list string -> option R) res :
  token is_word ty = true ->
  token is_word sys = true ->
  token not_close_brace p = true ->
  k post (((g ++ [ty]) ++ [sys]) ++ [p]) = Some res ->
  match_here COMMAND_PATTERN (with_command EmptyString ty sys p post) g k = Some res.
Proof.
  intros Hty Hsys Hp Hk.
  change (with_command EmptyString ty sys p post)
    with (String "#" (String.append ty
            (String "@" (String.append sys
               (String "{" (String.append p (String "}" post))))))).
  unfold COMMAND_PATTERN. cbn [match_here]. rewrite Ascii.eqb_refl.
  apply match_plus_run_some; [exact Hty | reflexivity |].
  rewrite Ascii.eqb_refl.
  apply match_plus_run_some; [exact Hsys | reflexivity |].
  rewrite Ascii.eqb_refl.
  apply match_plus_run_some; [exact Hp | reflexivity |].
  rewrite Ascii.eqb_refl. rewrite !consumed_append. exact Hk.
Qed.

Lemma search_first_command pre ty sys p post :
  no_hash pre = true ->
  token is_word ty = true ->
  token is_word sys = true ->
  token not_close_brace p = true ->
  search COMMAND_PATTERN (with_command pre ty sys p post) = Some [ty; sys; p].
Proof.
  intros Hpre Hty Hsys Hp.
  change (with_command pre ty sys p post)
    with (String.append pre (with_command EmptyString ty sys p post)).
  rewrite (search_skip_no_hash _ _ Hpre).
  assert (Hm : match_here COMMAND_PATTERN (with_command EmptyString ty sys p post) []
                 (fun _ g' => Some g') = Some [ty; sys; p])
    by (apply match_command_text; auto).
  revert Hm. unfold with_command at 1 2.
  change (String.append EmptyString ?x) with x. cbn [search]. intros ->. reflexivity.
Qed.

(** The first command of a message is the one found: in a message
    [pre#type@system{payload}post] with no hash sign in [pre], two non-empty
    names of word characters and a non-empty payload without a closing
    brace, the search gives exactly these three groups, whatever follows. *)
Theorem search_recognizes_first_command pre ty sys p post :
  no_hash pre = true ->
  token is_word ty = true ->
  token is_word sys = true ->
  token not_close_brace p = true ->
  search COMMAND_PATTERN (with_command pre ty sys p post) = Some [ty; sys; p].
Proof. exact (search_first_command pre ty sys p post). Qed.

Lemma string_append_assoc a b c :
  String.append (String.append a b) c = String.append a (String.append b c).
Proof.
  induction a as [| x a IH]; [reflexivity |].
  change ((String x (String.append (String.append a b) c))
          = (String x (String.append a (String.append b c)))).
  rewrite IH. reflexivity.
Qed.

(** Cache keys collide.  The key joins type, system and timestamp
    with underscores, and an underscore is a word character: the command of
    type [a_b] for system [c] and the command of type [a] for system [b_c],
    two different commands, get the same key at the same timestamp. *)
Theorem cache_key_collision (a b c : string) (payload payload' : list (text * json))
    (ts : float) :
  _generate_cache_key (command_of (String.append a (String "_" b)) c payload ts)
  = _generate_cache_key (command_of a (String.append b (String "_" c)) payload' ts)
  /\ command_of (String.append a (String "_" b)) c payload ts
     <> command_of a (String.append b (String "_" c)) payload' ts.
Proof.
  split.
  - unfold _generate_cache_key, command_of. simpl.
    rewrite !string_append_assoc. reflexivity.
  - intros H. apply (f_equal Command.command_type) in H. simpl in H.
    apply (f_equal String.length) in H. rewrite string_length_append in H.
    simpl in H. lia.
Qed.

Lemma process_message_keeps_processor self message now0 now1 :
  process_message Pydantic.V2 self message now0 now1 =
    ((None, plain_metadata message now0), self).
Proof.
  unfold process_message. rewrite extract_command_none. reflexivity.
Qed.

(** With pydantic 2 the cache stays as it is.  Whatever messages are
    processed, in whatever order, the processor after them is the one
    before, every command returned is [None], and a processor that started
    empty has nothing cached under any key. *)
Theorem cache_never_fills (self : MessageProcessor.t)
    (inputs : list (string * datetime * datetime)) (cache_key : string) :
  snd (process_all Pydantic.V2 self inputs) = self /\
  Forall (fun command => command = None)
    (fst (process_all Pydantic.V2 self inputs)) /\
  get_cached_command (snd (process_all Pydantic.V2 MessageProcessor.init inputs))
    cache_key = None.
Proof.
  assert (H : forall s,
            snd (process_all Pydantic.V2 s inputs) = s /\
            Forall (fun command => command = None)
              (fst (process_all Pydantic.V2 s inputs))).
  { induction inputs as [| [[message now0] now1] rest IH]; intros s; simpl.
    - split; [reflexivity | constructor].
    - rewrite process_message_keeps_processor.
      destruct (IH s) as [Hs Hc].
      destruct (process_all Pydantic.V2 s rest) as [commands s'']. simpl in *.
      split; [exact Hs | constructor; [reflexivity | exact Hc]]. }
  destruct (H self) as [Hs Hc]. split; [exact Hs | split; [exact Hc |]].
  rewrite (proj1 (H MessageProcessor.init)). reflexivity.
Qed.

(** What pydantic 1 makes of the payload [[]]. *)
Lemma extract_command_empty_list self now pre ty sys post :
  no_hash pre = true ->
  token is_word ty = true ->
  token is_word sys = true ->
  let command := command_of ty sys [] (PyFloat.timestamp now) in
  extract_command Pydantic.V1 self (with_command pre ty sys "[]" post) now =
    (Some command,
     {| _command_cache :=
          <[_generate_cache_key command := command]> (_command_cache self) |}).
Proof.
  intros Hpre Hty Hsys.
  exact (extract_command_accepted Pydantic.V1 self _ now ty sys "[]" (JArr []) []
           (search_first_command pre ty sys "[]" post Hpre Hty Hsys eq_refl)
           loads_empty_list eq_refl).
Qed.

(** With pydantic 1 the cache does fill.  The payload of the first command
    of a message may be the empty list: pydantic 1 makes the empty dict of
    it, and [extract_command] returns the command with that payload and
    caches it under its key, where pydantic 2 gives nothing. *)
Theorem list_payload_fills_cache
    (self : MessageProcessor.t) (now : datetime) (pre ty sys post : string) :
  no_hash pre = true ->
  token is_word ty = true ->
  token is_word sys = true ->
  let message := with_command pre ty sys "[]" post in
  let command := command_of ty sys [] (PyFloat.timestamp now) in
  fst (extract_command Pydantic.V1 self message now) = Some command /\
  get_cached_command (snd (extract_command Pydantic.V1 self message now))
    (_generate_cache_key command) = Some command /\
  fst (extract_command Pydantic.V2 self message now) = None.
Proof.
  intros Hpre Hty Hsys message command. subst message command.
  rewrite (extract_command_empty_list self now pre ty sys post Hpre Hty Hsys).
  rewrite extract_command_none. cbn [fst snd].
  split; [reflexivity | split; [| reflexivity]].
  unfold get_cached_command. cbn [_command_cache]. apply lookup_insert_eq.
Qed.

End ProcessorExtras.

Lemma search_finds_a_command_witness :
  exists pre ty sys p post,
    [ "ping"; "system"; "x" ] = [ty; sys; p] /\
    "say #ping@system{x}!" = with_command pre ty sys p post /\
    token Re.is_word ty = true /\ token Re.is_word sys = true /\
    token Re.not_close_brace p = true.
Proof.
  apply (search_finds_a_command "say #ping@system{x}!" [ "ping"; "system"; "x" ]).
  vm_compute. reflexivity.
Defined.

Lemma search_recognizes_first_command_witness :
  Re.search MessageProcessor.COMMAND_PATTERN
    (with_command "say " "ping" "system" "x" "! #pong@system{y}")
  = Some [ "ping"; "system"; "x" ].
Proof.
  apply (search_recognizes_first_command "say " "ping" "system" "x"
           "! #pong@system{y}");
    vm_compute; reflexivity.
Defined.

Lemma list_payload_fills_cache_witness :
  fst (MessageProcessor.extract_command Pydantic.V1 MessageProcessor.init
         (with_command "say " "ping" "system" "[]" "!") now_2026)
  = Some (command_of "ping" "system" [] (PyFloat.timestamp now_2026)).
Proof.
  apply (list_payload_fills_cache MessageProcessor.init now_2026
           "say " "ping" "system" "!");
    reflexivity.
Defined.

(** ** The length of a signature *)

Section SignatureLength.
Import Bytes Sha256 Base64 PyFloat SignatureVerifier.

Lemma be_bytes_length n x : length (be_bytes n x) = n.
Proof.
  revert x. induction n as [| n IH]; intros x; simpl; [reflexivity |].
  rewrite length_app, IH. simpl. lia.
Qed.

Lemma round_length st kw : length st = 8%nat -> length (round st kw) = 8%nat.
Proof.
  intros H. do 9 (destruct st as [| ? st]; try discriminate H). reflexivity.
Qed.

Lemma rounds_length kws st :
  length st = 8%nat -> length (fold_left round kws st) = 8%nat.
Proof.
  revert st. induction kws as [| kw kws IH]; intros st H; simpl; [exact H |].
  apply IH, round_length, H.
Qed.

Lemma compress_length h block :
  length h = 8%nat -> length (compress h block) = 8%nat.
Proof.
  intros H. unfold compress.
  rewrite length_map, length_combine, rounds_length by exact H. rewrite H.
  reflexivity.
Qed.

Lemma compress_all_length blocks h :
  length h = 8%nat -> length (fold_left compress blocks h) = 8%nat.
Proof.
  revert h. induction blocks as [| block blocks IH]; intros h H; simpl; [exact H |].
  apply IH, compress_length, H.
Qed.

(** A SHA-256 digest has 32 bytes. *)
Lemma sha256_length m : length (sha256 m) = 32%nat.
Proof.
  unfold sha256.
  pose proof (compress_all_length (chunks (length (pad m)) 64 (pad m)) H0
                eq_refl) as H.
  destruct (fold_left compress (chunks (length (pad m)) 64 (pad m)) H0)
    as [| a h]; [discriminate H |].
  do 8 (destruct h as [| ? h]; try discriminate H).
  cbn [map concat]. rewrite !length_app, !be_bytes_length. reflexivity.
Qed.

Lemma hmac_sha256_length key msg : length (hmac_sha256 key msg) = 32%nat.
Proof. unfold hmac_sha256. apply sha256_length. Qed.

(** 32 bytes encode to 44 characters. *)
Lemma b64encode_length b : length b = 32%nat -> length (b64encode b) = 44%nat.
Proof.
  intros H. do 33 (destruct b as [| ? b]; try discriminate H). reflexivity.
Qed.

Lemma ascii_decode_length b : String.length (ascii_decode b) = length b.
Proof.
  induction b as [| x b IH]; simpl; [reflexivity |]. rewrite IH. reflexivity.
Qed.

(** A signature has 44 characters, whatever the key, the message
    and the timestamp: it is the Base64 text of a 32-byte digest.
    [verify_signature] therefore never accepts a text of another length. *)
Theorem signatures_have_44_characters
    (self : SignatureVerifier.t) (message : string) (timestamp : option float)
    (now : datetime) :
  String.length (generate_signature self message timestamp now) = 44%nat /\
  forall signature,
    verify_signature self message signature timestamp now = true ->
    String.length signature = 44%nat.
Proof.
  assert (Hlen : forall ts n,
            String.length (generate_signature self message ts n) = 44%nat).
  { intros ts n. unfold generate_signature.
    rewrite ascii_decode_length. apply b64encode_length, hmac_sha256_length. }
  split; [apply Hlen |].
  intros signature H. unfold verify_signature in H.
  destruct (age_check self timestamp now) as [[|] |]; try discriminate H.
  apply compare_digest_true, utf8_encode_inj in H. rewrite H. apply Hlen.
Qed.

End SignatureLength.

Lemma signatures_have_44_characters_witness :
  String.length
    (SignatureVerifier.generate_signature default_verifier "ping"
       (Some 1700000000%float) now_2023)
  = 44%nat.
Proof.
  apply (proj2 (signatures_have_44_characters default_verifier "ping"
                  (Some 1700000000%float) now_2023)).
  vm_compute. reflexivity.
Defined.

(** ** The controller *)

Section CoreProperties.
Import Exc Json MessageProcessor CoreControl.
Context {World Response : Type}.
Variable payload_str : list (text * json) -> string.
Implicit Types (self : CoreControl.t World Response) (w : World).

(** With pydantic 2 [process_input] never gets as far as a handler.
    Whatever the input text, the controller, the clock and the world, it
    returns the error dict [No valid command found] with the metadata of a
    message without command, and leaves the controller and the world as
    they were; the router logs nothing. *)
Theorem process_input_finds_no_command self input_text now0 now1 now2 w :
  process_input payload_str Pydantic.V2 self input_text now0 now1 now2 w =
    (Ok (no_command (plain_metadata input_text now0)), self, w, []).
Proof.
  unfold process_input. rewrite process_message_keeps_processor.
  destruct self; reflexivity.
Qed.

(** With pydantic 1 [process_input] does reach a handler.  For a message
    whose first command has the payload [[]] and names a system with a
    registered handler class, the command goes to the router unverified (a
    command built from a message carries no signature); when the handler
    answers, [process_input] returns the success dict with that answer and
    metadata that report a command, and the world is the one the handler
    left. *)
Theorem process_input_reaches_handler
    self now0 now1 now2 w pre ty sys post handler_class response w' :
  no_hash pre = true ->
  token Re.is_word ty = true ->
  token Re.is_word sys = true ->
  let message := with_command pre ty sys "[]" post in
  let command := command_of ty sys [] (PyFloat.timestamp now1) in
  CommandRouter._handlers (router self) !! sys = Some handler_class ->
  CommandRouter.invoke handler_class command w = (Ok response, w') ->
  let r := process_input payload_str Pydantic.V1 self message now0 now1 now2 w in
  exists metadata,
    result_of r = Ok (succeeded response metadata) /\
    metadata !! "has_command" = Some (MBool true) /\
    metadata !! "target_system" = Some (MStr sys) /\
    world_of r = w'.
Proof.
  intros Hpre Hty Hsys message command Hget Hrun r. subst r message command.
  unfold process_input, process_message.
  rewrite (extract_command_empty_list (processor self) now1 pre ty sys post
             Hpre Hty Hsys).
  cbn iota beta zeta. unfold execute. cbn [Command.signature command_of router].
  destruct (route_command_found (router self)
              (command_of ty sys [] (PyFloat.timestamp now1)) w handler_class Hget)
    as (router' & log & _ & ->).
  rewrite Hrun. eexists. unfold result_of, world_of. cbn [fst snd].
  split; [reflexivity |].
  split; [by simplify_map_eq | split; [by simplify_map_eq | reflexivity]].
Qed.

(** The controller registers no handler.  [CoreControl()] always
    builds, and on the controller it gives, a command without signature,
    as [extract_command] builds them, ends in the error dict of the
    [ValueError] of the router, [No handler found for system], with the world
    untouched. *)
Theorem fresh_core_has_no_handler (signature_key : option string) :
  exists (core : CoreControl.t World Response) log,
    CoreControl.init signature_key = Some (core, log) /\
    forall c metadata now w,
      Command.signature c = None ->
      let r := execute payload_str core c metadata now w in
      result_of r =
        Ok (processing_error
              (ValueError (String.append "No handler found for system: "
                             (Command.target_system c)))) /\
      world_of (W := World) r = w.
Proof.
  unfold CoreControl.init, SignatureVerifier.init.
  change ((- SignatureVerifier.MAX_DELTA_DAYS <=? 300 / 86400)
          && (300 / 86400 <=? SignatureVerifier.MAX_DELTA_DAYS)) with true.
  cbn iota beta. eexists _, _. split; [reflexivity |].
  intros c metadata now w Hsig. unfold execute. rewrite Hsig.
  cbn [router]. unfold CommandRouter.route_command.
  cbn [CommandRouter._initialized CommandRouter._initialize_handlers
       CommandRouter._handlers fst snd CommandRouter.init].
  rewrite lookup_empty. split; reflexivity.
Qed.

End CoreProperties.

Lemma fresh_core_has_no_handler_witness :
  exists core log,
    CoreControl.init (World := list string) (Response := string) None
    = Some (core, log) /\
    result_of
      (CoreControl.execute (fun _ => EmptyString) core (command_for "discord") ∅
         now_2023 [])
    = Exc.Ok (CoreControl.processing_error
                (Exc.ValueError "No handler found for system: discord")).
Proof.
  destruct (fresh_core_has_no_handler (World := list string) (Response := string)
              (fun _ => EmptyString) None) as (core & log & Hinit & H).
  exists core, log. split; [exact Hinit |].
  apply (H (command_for "discord") ∅ now_2023 []). reflexivity.
Defined.

Lemma process_input_reaches_handler_witness :
  exists metadata,
    result_of
      (CoreControl.process_input (fun _ => EmptyString) Pydantic.V1
         {| CoreControl.router := discord_router;
            CoreControl.verifier := default_verifier;
            CoreControl.processor := MessageProcessor.init |}
         (with_command "say " "ping" "discord" "[]" "!")
         now_2023 now_2023 now_2023 [])
    = Exc.Ok (CoreControl.succeeded "discord" metadata).
Proof.
  destruct (process_input_reaches_handler (fun _ => EmptyString)
              {| CoreControl.router := discord_router;
                 CoreControl.verifier := default_verifier;
                 CoreControl.processor := MessageProcessor.init |}
              now_2023 now_2023 now_2023 [] "say " "ping" "discord" "!"
              (answering "discord") "discord" ["discord"]
              eq_refl eq_refl eq_refl eq_refl eq_refl)
    as (metadata & H & _).
  exists metadata. exact H.
Defined.

(** ** The handlers *)

Section HandlerProperties.
Import Exc Json PyValue Handlers.

Lemma caught_no_exception {World} prefix e (w : World) :
  no_exception (fst (caught prefix e w)).
Proof.
  unfold caught. destruct (exn_is_Exception e) eqn:He; simpl; [exact I | exact He].
Qed.

Section Platforms.
Context {World App Bot Channel Smtp Ctx Msg : Type}.
Variable telegram : TelegramApi World App.
Variable discord : DiscordApi World Bot Channel.
Variable email : EmailApi World Smtp Ctx Msg.

(** No [handle_command] lets an [Exception] out: whatever the
    platform does, each of the three returns a dict, or raises what derives
    from [BaseException] alone. *)
Theorem handlers_let_no_exception_out
    (tg : Telegram.t) (dc : Discord.t) (em : Email.t) (command : Command.t)
    (w : World) :
  no_exception (fst (Telegram.handle_command telegram tg command w)) /\
  no_exception (fst (Discord.handle_command discord dc command w)) /\
  no_exception (fst (fst (Email.handle_command email em command w))).
Proof.
  split; [| split].
  - unfold Telegram.handle_command.
    destruct (dict_get _ _) as [id |]; [| exact I].
    destruct (truthy id); [| exact I].
    destruct (tg_send_message _ _ _ _ _) as [[[] | e] w']; [exact I |].
    apply caught_no_exception.
  - unfold Discord.handle_command.
    destruct (dict_get _ _) as [id |]; [| exact I].
    destruct (truthy id); [| exact I].
    destruct (dc_int _ _) as [n | e]; [| apply caught_no_exception].
    destruct (dc_fetch_channel _ _ _ _) as [[channel | e] w1];
      [| apply caught_no_exception].
    destruct (dc_channel_bool _ _); [| exact I].
    destruct (dc_send _ _ _ _) as [[[] | e] w2]; [exact I |].
    apply caught_no_exception.
  - unfold Email.handle_command.
    destruct (dict_get _ _) as [addr |]; [| exact I].
    destruct (truthy addr); [| exact I].
    destruct (Email._send_email _ _ _ _ _ _) as [[[[] | e] self'] w'];
      [exact I |].
    pose proof (caught_no_exception Email.PREFIX e w') as H.
    destruct (caught Email.PREFIX e w') as [r w'']. exact H.
Qed.

(** Without a recipient nothing is called.  When the payload names
    no chat, channel or address, or one whose truth value is false (0, the
    empty text, [null], [false], an empty list or dict), the handler answers
    with its error dict, and the world (and, for the mail handler, the
    stored connection) is untouched. *)
Theorem handlers_skip_without_recipient
    (tg : Telegram.t) (dc : Discord.t) (em : Email.t) (command : Command.t)
    (w : World) :
  (absent (Command.payload command) "chat_id" = true ->
   Telegram.handle_command telegram tg command w
   = (Ok (reply "error" "Invalid chat ID or missing content"), w)) /\
  (absent (Command.payload command) "channel_id" = true ->
   Discord.handle_command discord dc command w
   = (Ok (reply "error" "Invalid channel ID or missing content"), w)) /\
  (absent (Command.payload command) "to" = true ->
   Email.handle_command email em command w
   = (Ok (reply "error" "Invalid email address or missing content"), em, w)).
Proof.
  unfold absent, Telegram.handle_command, Discord.handle_command,
    Email.handle_command.
  split; [| split]; intros H;
    destruct (dict_get _ _) as [v |]; try reflexivity;
    apply negb_true_iff in H; rewrite H; reflexivity.
Qed.

(** A handler class without its token cannot be routed to.  Routing
    a command to the Telegram handler when [TELEGRAM_BOT_TOKEN] is not set,
    or set to the empty text, raises the [RuntimeError] of the router around the [ValueError] of the
    constructor, before anything is built; for the Discord handler the same
    holds for [DISCORD_BOT_TOKEN], but the bot has been built by then: the
    world is the one its constructor left. *)
Theorem handlers_need_their_token
    (self : CommandRouter.t World (gmap string string)) (command : Command.t)
    (w : World) :
  let target := Command.target_system command in
  let r := CommandRouter.route_command self command w in
  let missing (name : string) :=
    Raise (RuntimeError_from
             (String.append "Error handling command for "
                (String.append target
                   (String.append ": "
                      (String.append name " environment variable not set"))))
             (ValueError (String.append name " environment variable not set"))) in
  (CommandRouter._handlers self !! target = Some (Telegram.handler_class telegram) ->
   str_truthy (tg_getenv telegram w "TELEGRAM_BOT_TOKEN") = false ->
   result_of r = missing "TELEGRAM_BOT_TOKEN" /\ world_of r = w) /\
  (forall b w1,
     CommandRouter._handlers self !! target = Some (Discord.handler_class discord) ->
     dc_bot discord w = (Ok b, w1) ->
     str_truthy (dc_getenv discord w1 "DISCORD_BOT_TOKEN") = false ->
     result_of r = missing "DISCORD_BOT_TOKEN" /\ world_of r = w1).
Proof.
  intros target r missing. subst target r missing. split.
  - intros Hget Henv.
    apply (route_constructor_raises self command w _
             (ValueError "TELEGRAM_BOT_TOKEN environment variable not set") w Hget);
      [| reflexivity].
    unfold Telegram.handler_class, Telegram.init. cbn [CommandRouter.instantiate].
    destruct (tg_getenv telegram w "TELEGRAM_BOT_TOKEN") as [[| a s] |];
      [reflexivity | discriminate Henv | reflexivity].
  - intros b w1 Hget Hbot Henv.
    apply (route_constructor_raises self command w _
             (ValueError "DISCORD_BOT_TOKEN environment variable not set") w1 Hget);
      [| reflexivity].
    unfold Discord.handler_class, Discord.init. cbn [CommandRouter.instantiate].
    rewrite Hbot.
    destruct (dc_getenv discord w1 "DISCORD_BOT_TOKEN") as [[| a s] |];
      [reflexivity | discriminate Henv | reflexivity].
Qed.

(** A failed send is routed successfully.  When the Telegram handler
    is built and [send_message] raises an [Exception], the router does not
    raise: it returns the error dict of the handler, with the text of the
    exception, and its last log record is the one of a successful
    routing. *)
Theorem route_reports_failed_send_as_success
    (self : CommandRouter.t World (gmap string string)) (command : Command.t)
    (w w1 w2 : World) (tg : Telegram.t) (id : json) (e : exn) :
  let target := Command.target_system command in
  let r := CommandRouter.route_command self command w in
  CommandRouter._handlers self !! target = Some (Telegram.handler_class telegram) ->
  Telegram.init telegram w = (Ok tg, w1) ->
  dict_get (Command.payload command) (text_of_string "chat_id") = Some id ->
  truthy id = true ->
  tg_send_message telegram (Telegram.application tg) id
    (dict_get_default (Command.payload command) (text_of_string "content")
       NO_CONTENT) w1 = (Raise e, w2) ->
  exn_is_Exception e = true ->
  result_of r =
    Ok (reply "error"
          (String.append "Error handling Telegram command: " (exn_str e))) /\
  world_of r = w2 /\
  last (log_of r) =
    Some (INFO, String.append "Successfully routed command to " target).
Proof.
  intros target r Hget Hinit Hid Htrue Hsend He. subst target r.
  destruct (route_command_found self command w _ Hget) as (s' & log & _ & ->).
  unfold CommandRouter.invoke, Telegram.handler_class.
  cbn [CommandRouter.instantiate]. rewrite Hinit.
  cbn [CommandRouter.handle_command]. unfold Telegram.handle_command.
  rewrite Hid, Htrue, Hsend. unfold caught. rewrite He.
  unfold result_of, world_of, log_of. cbn [fst snd].
  split; [reflexivity | split; [reflexivity |]].
  apply last_snoc.
Qed.

(** The mail handler keeps a connection that never logged in.  When
    the connection opens and [starttls] raises an [Exception], the handler
    answers with its error dict and stores the connection; the next command
    on the same handler then neither connects nor logs in: it is
    [send_message] on the stored connection, and nothing else, that decides
    its answer. *)
Theorem email_keeps_half_open_connection
    (em : Email.t) (command command' : Command.t) (w w1 w2 w3 w' : World)
    (context : Ctx) (conn : Smtp) (e : exn) (addr addr' : json) :
  Email.smtp em = None ->
  dict_get (Command.payload command) (text_of_string "to") = Some addr ->
  truthy addr = true ->
  em_ssl_context email w = (Ok context, w1) ->
  em_smtp email (Email.email_server em) 587 w1 = (Ok conn, w2) ->
  em_starttls email conn context w2 = (Raise e, w3) ->
  exn_is_Exception e = true ->
  dict_get (Command.payload command') (text_of_string "to") = Some addr' ->
  truthy addr' = true ->
  let first := Email.handle_command email em command w in
  let second := Email.handle_command email (snd (fst first)) command' w' in
  first =
    (Ok (reply "error" (String.append "Error handling email command: " (exn_str e))),
     Email.with_smtp em conn, w3) /\
  second =
    (let '(sent, em', w'') :=
       Email.send_over email (Email.with_smtp em conn) addr'
         (dict_get_default (Command.payload command') (text_of_string "subject")
            (JStr (text_of_string "Shadow Nexus Response")))
         (dict_get_default (Command.payload command') (text_of_string "content")
            NO_CONTENT) w' in
     match sent with
     | Ok _ => (Ok (reply "success" "Email sent"), em', w'')
     | Raise e' => let '(r, w''') := caught Email.PREFIX e' w'' in (r, em', w''')
     end).
Proof.
  intros Hnone Hto Haddr Hssl Hopen Htls He Hto' Haddr' first second.
  assert (Hfirst : first =
            (Ok (reply "error"
                   (String.append "Error handling email command: " (exn_str e))),
             Email.with_smtp em conn, w3)).
  { subst first. unfold Email.handle_command. rewrite Hto, Haddr.
    unfold Email._send_email. rewrite Hnone.
    unfold Email._connect_smtp. rewrite Hssl, Hopen, Htls.
    unfold caught. rewrite He. reflexivity. }
  split; [exact Hfirst |].
  subst second. rewrite Hfirst. cbn [fst snd].
  unfold Email.handle_command. rewrite Hto', Haddr'.
  unfold Email._send_email. cbn [Email.smtp Email.with_smtp].
  destruct (Email.send_over _ _ _ _ _ _) as [[[[] | e'] em'] w'']; reflexivity.
Qed.

End Platforms.
End HandlerProperties.

Section HandlerWitnesses.
Import Exc Json PyValue Handlers.

Lemma handlers_skip_without_recipient_witness :
  Telegram.handle_command (sample_telegram full_env EmptyString (Ok tt))
    {| Telegram.token := "t0"; Telegram.application := tt |}
    (command_with "telegram" "chat_id" (JInt 0)) []
  = (Ok (reply "error" "Invalid chat ID or missing content"), []) /\
  Discord.handle_command (sample_discord full_env EmptyString (Ok tt))
    {| Discord.bot := tt; Discord.token := "d0" |}
    (command_with "telegram" "chat_id" (JInt 0)) []
  = (Ok (reply "error" "Invalid channel ID or missing content"), []) /\
  Email.handle_command (sample_email full_env EmptyString (Ok tt))
    sample_mailer (command_with "telegram" "chat_id" (JInt 0)) []
  = (Ok (reply "error" "Invalid email address or missing content"),
     sample_mailer, []).
Proof.
  destruct (handlers_skip_without_recipient
              (sample_telegram full_env EmptyString (Ok tt))
              (sample_discord full_env EmptyString (Ok tt))
              (sample_email full_env EmptyString (Ok tt))
              {| Telegram.token := "t0"; Telegram.application := tt |}
              {| Discord.bot := tt; Discord.token := "d0" |}
              sample_mailer (command_with "telegram" "chat_id" (JInt 0)) [])
    as (Ht & Hd & He).
  split; [apply Ht; reflexivity | split; [apply Hd | apply He]; reflexivity].
Defined.

Lemma handlers_need_their_token_witness :
  result_of
    (CommandRouter.route_command
       (fst (CommandRouter.register_handler (fst CommandRouter.init) "telegram"
               (Telegram.handler_class (sample_telegram ∅ EmptyString (Ok tt)))))
       (command_with "telegram" "chat_id" (JInt 42)) [])
  = Raise
      (RuntimeError_from
         "Error handling command for telegram: TELEGRAM_BOT_TOKEN environment variable not set"
         (ValueError "TELEGRAM_BOT_TOKEN environment variable not set")) /\
  world_of
    (CommandRouter.route_command
       (fst (CommandRouter.register_handler (fst CommandRouter.init) "discord"
               (Discord.handler_class (sample_discord ∅ EmptyString (Ok tt)))))
       (command_with "discord" "channel_id" (JInt 42)) [])
  = ["Bot"].
Proof.
  split.
  - apply (proj1 (handlers_need_their_token
                    (sample_telegram ∅ EmptyString (Ok tt))
                    (sample_discord ∅ EmptyString (Ok tt))
                    _ (command_with "telegram" "chat_id" (JInt 42)) []));
      reflexivity.
  - apply (proj2 (handlers_need_their_token
                    (sample_telegram ∅ EmptyString (Ok tt))
                    (sample_discord ∅ EmptyString (Ok tt))
                    _ (command_with "discord" "channel_id" (JInt 42)) [])
             tt ["Bot"]);
      reflexivity.
Defined.

Lemma route_reports_failed_send_as_success_witness :
  result_of
    (CommandRouter.route_command
       (fst (CommandRouter.register_handler (fst CommandRouter.init) "telegram"
               (Telegram.handler_class
                  (sample_telegram full_env "send_message" (Raise connection_error)))))
       (command_with "telegram" "chat_id" (JInt 42)) [])
  = Ok (reply "error" "Error handling Telegram command: timed out").
Proof.
  apply (route_reports_failed_send_as_success
           (sample_telegram full_env "send_message" (Raise connection_error))
           _ (command_with "telegram" "chat_id" (JInt 42))
           [] ["build"] ["build"; "send_message"]
           {| Telegram.token := "t0"; Telegram.application := tt |}
           (JInt 42) connection_error);
    reflexivity.
Defined.

Lemma email_keeps_half_open_connection_witness :
  Email.handle_command
    (sample_email full_env "starttls" (Raise connection_error))
    (snd (fst (Email.handle_command
                 (sample_email full_env "starttls" (Raise connection_error))
                 sample_mailer (command_with "email" "to" (JInt 7)) [])))
    (command_with "email" "to" (JInt 7)) []
  = (Ok (reply "success" "Email sent"), Email.with_smtp sample_mailer tt,
     ["send_message"]).
Proof.
  refine (eq_trans
            (proj2 (email_keeps_half_open_connection
                      (sample_email full_env "starttls" (Raise connection_error))
                      sample_mailer
                      (command_with "email" "to" (JInt 7))
                      (command_with "email" "to" (JInt 7))
                      [] ["create_default_context"]
                      ["create_default_context"; "SMTP"]
                      ["create_default_context"; "SMTP"; "starttls"] []
                      tt tt connection_error (JInt 7) (JInt 7)
                      _ _ _ _ _ _ _ _ _))
            _);
    reflexivity.
Defined.

End HandlerWitnesses.
